(** * SuperUI: component lookup, ranked search, visual pattern matching
      and the template conversation counter

    A shallow embedding of the component finder
    ([findComponent], [searchComponentsRanked], [getComponentByName]),
    of [listComponents], of [matchComponentsFromAnalysis] and of
    [processConversationStep], followed by the properties of the
    specification that concern them.

    Conventions of the embedding.
    - A JavaScript string is a [string]: a sequence of code units, each
      below 256.  [toLowerCase], [trim] and the white space class of a
      regular expression are written out for that range.
    - A JavaScript number that holds an integer is a [Z].
    - An object literal whose entries are enumerated ([Object.entries],
      [Object.values]) is the list of its own entries in insertion order;
      bracket access is the lookup of an own key of that list.  An object
      that is only read and written by key is a [gmap].  Bracket access
      to the component table with a key that a caller supplies also
      reaches the members that every object literal inherits from
      [Object.prototype]; [libraryAt] accounts for them.
    - [Array.prototype.sort] is stable. *)

From Stdlib Require Import ZArith Ascii String List Sorted Lia.
From stdpp Require Import gmap strings list fin_maps sorting.

Open Scope Z_scope.

(** ** JavaScript primitives used by the sources *)

Module JS.

(** The double quote, for string literals that contain one. *)
Definition dq : string := String (ascii_of_nat 34) EmptyString.

(** White space and line terminators below 256: TAB, LF, VT, FF, CR,
    SP and NBSP.  [String.prototype.trim] strips them and the regular
    expression class [\s] matches them. *)
Definition isWhiteSpace (c : ascii) : bool :=
  let n := N_of_ascii c in
  ((9 <=? n) && (n <=? 13) || (n =? 32) || (n =? 160))%N.

(** Upper-case letters below 256 are A-Z and the Latin-1 letters
    0xC0-0xDE (0xD7, the multiplication sign, has no case); the lower
    case of each is 32 above. *)
Definition toLowerChar (c : ascii) : ascii :=
  let n := N_of_ascii c in
  if ((65 <=? n) && (n <=? 90)
      || (192 <=? n) && (n <=? 222) && negb (n =? 215))%N
  then ascii_of_N (n + 32) else c.

Fixpoint toLowerCase (s : string) : string :=
  match s with
  | EmptyString => EmptyString
  | String c s' => String (toLowerChar c) (toLowerCase s')
  end.

Fixpoint trimStart (s : string) : string :=
  match s with
  | EmptyString => EmptyString
  | String c s' => if isWhiteSpace c then trimStart s' else s
  end.

Fixpoint trimEnd (s : string) : string :=
  match s with
  | EmptyString => EmptyString
  | String c s' =>
      match trimEnd s' with
      | EmptyString => if isWhiteSpace c then EmptyString else String c EmptyString
      | t => String c t
      end
  end.

Definition trim (s : string) : string := trimEnd (trimStart s).

(** [s.startsWith(q)] *)
Definition startsWith (s q : string) : bool := String.prefix q s.

(** [s.includes(q)]: [q] occurs in [s] at some position. *)
Fixpoint includes (s q : string) : bool :=
  String.prefix q s ||
  match s with
  | EmptyString => false
  | String _ s' => includes s' q
  end.

(** [s.split(/\s+/)].  [splitFrom inSep s] is the list of pieces of
    [s], the first piece starting at the head of [s]; [inSep] tells
    that the code unit before [s] belonged to a separator. *)
Fixpoint splitFrom (inSep : bool) (s : string) : list string :=
  match s with
  | EmptyString => [EmptyString]
  | String c s' =>
      if isWhiteSpace c then
        if inSep then splitFrom true s'
        else EmptyString :: splitFrom true s'
      else
        match splitFrom false s' with
        | t :: ts => String c t :: ts
        | [] => [String c EmptyString]
        end
  end.

Definition splitWhiteSpace (s : string) : list string := splitFrom false s.

(** Truthiness of a string: every string but the empty one. *)
Definition truthy (s : string) : bool := negb (String.eqb s EmptyString).

(** [a.slice(0, limit)] for an integer [limit]: a negative [limit]
    counts from the end of the array. *)
Definition slice0 {A} (limit : Z) (l : list A) : list A :=
  if limit <? 0
  then take (Z.to_nat (Z.max (Z.of_nat (length l) + limit) 0)) l
  else take (Z.to_nat limit) l.

(** [a.sort(cmp)]: the stable sort.  Elements are inserted from the
    right, each one before the first element it does not have to
    follow ([cmp x y <= 0]), so equal elements keep their order. *)
Fixpoint insertBy {A} (cmp : A -> A -> Z) (x : A) (l : list A) : list A :=
  match l with
  | [] => [x]
  | y :: l' => if cmp x y <=? 0 then x :: l else y :: insertBy cmp x l'
  end.

Definition sortBy {A} (cmp : A -> A -> Z) (l : list A) : list A :=
  foldr (insertBy cmp) [] l.

(** [s.slice(n)] for a string and a length [n]: [s] without its first
    [n] code units. *)
Fixpoint dropChars (n : nat) (s : string) : string :=
  match n, s with
  | O, _ => s
  | S n', String _ s' => dropChars n' s'
  | S _, EmptyString => EmptyString
  end.

(** [s.replace(pattern, "")] for a string [pattern]: the first
    occurrence of [pattern] in [s], if there is one, is removed. *)
Fixpoint removeFirst (s pattern : string) : string :=
  if String.prefix pattern s then dropChars (String.length pattern) s
  else
    match s with
    | EmptyString => EmptyString
    | String c s' => String c (removeFirst s' pattern)
    end.

(** [s.split(sep)] for a separator of one code unit. *)
Fixpoint splitOn (sep : ascii) (s : string) : list string :=
  match s with
  | EmptyString => [EmptyString]
  | String c s' =>
      if Ascii.eqb c sep then EmptyString :: splitOn sep s'
      else
        match splitOn sep s' with
        | t :: ts => String c t :: ts
        | [] => [String c EmptyString]
        end
  end.

(** [a.join(sep)] *)
Fixpoint join (sep : string) (l : list string) : string :=
  match l with
  | [] => EmptyString
  | [x] => x
  | x :: l' => x +:+ sep +:+ join sep l'
  end.

(** [a.findIndex(p)], [None] standing for -1. *)
Fixpoint findIndex {A} (p : A -> bool) (l : list A) : option nat :=
  match l with
  | [] => None
  | x :: l' => if p x then Some O else S <$> findIndex p l'
  end.

(** The names of the members that an object literal inherits from
    [Object.prototype].  Each of them is a function, but for
    "__proto__", which yields the prototype object; all are truthy. *)
Definition objectPrototypeMembers : list string :=
  ["constructor"; "__defineGetter__"; "__defineSetter__"; "hasOwnProperty";
   "__lookupGetter__"; "__lookupSetter__"; "isPrototypeOf"; "propertyIsEnumerable";
   "toString"; "valueOf"; "__proto__"; "toLocaleString"].

Definition inherits (key : string) : bool :=
  existsb (String.eqb key) objectPrototypeMembers.

End JS.

Import JS.

(** ** The component finder *)

Module ComponentFinder.

Inductive Library := ShadcnUi | ShadcnAi | ShadcnButton | ShadcnText.

Record ComponentInfo := {
  componentName : string;
  displayName : string;
  packageName : string;
  importStatement : string;
  usage : string;
  description : string;
  category : string;
  tags : list string;
  library : option Library;
  installCommand : option string;
  documentationUrl : option string
}.

#[global] Instance Library_eq_dec : EqDecision Library.
Proof. solve_decision. Defined.

#[global] Instance ComponentInfo_eq_dec : EqDecision ComponentInfo.
Proof. solve_decision. Defined.

(** The component library, in the order of the object literal. *)
Definition COMPONENT_LIBRARY : list (string * ComponentInfo) :=
[
  ("button",
   {| componentName := "button";
      displayName := "Button";
      packageName := "@radix-ui/react-button";
      importStatement := ("import { Button } from " +:+ dq +:+ "@/components/ui/button" +:+ dq);
      usage := ("<Button variant=" +:+ dq +:+ "default" +:+ dq +:+ ">Click me</Button>");
      description := "A versatile button component with multiple variants and sizes";
      category := "form";
      tags := ["button"; "click"; "action"; "primary"; "secondary"];
      library := None;
      installCommand := None;
      documentationUrl := None |});
  ("input",
   {| componentName := "input";
      displayName := "Input";
      packageName := "@radix-ui/react-input";
      importStatement := ("import { Input } from " +:+ dq +:+ "@/components/ui/input" +:+ dq);
      usage := ("<Input placeholder=" +:+ dq +:+ "Enter text..." +:+ dq +:+ " />");
      description := "A text input component for user input";
      category := "form";
      tags := ["input"; "text"; "form"; "field"; "type"];
      library := None;
      installCommand := None;
      documentationUrl := None |});
  ("textarea",
   {| componentName := "textarea";
      displayName := "Textarea";
      packageName := "@radix-ui/react-textarea";
      importStatement := ("import { Textarea } from " +:+ dq +:+ "@/components/ui/textarea" +:+ dq);
      usage := ("<Textarea placeholder=" +:+ dq +:+ "Enter your message..." +:+ dq +:+ " />");
      description := "A multi-line text input component";
      category := "form";
      tags := ["textarea"; "text"; "multiline"; "message"; "comment"];
      library := None;
      installCommand := None;
      documentationUrl := None |});
  ("select",
   {| componentName := "select";
      displayName := "Select";
      packageName := "@radix-ui/react-select";
      importStatement := ("import { Select, SelectContent, SelectItem, SelectTrigger, SelectValue } from " +:+ dq +:+ "@/components/ui/select" +:+ dq);
      usage := ("<Select><SelectTrigger><SelectValue placeholder=" +:+ dq +:+ "Select option" +:+ dq +:+ " /></SelectTrigger><SelectContent><SelectItem value=" +:+ dq +:+ "option1" +:+ dq +:+ ">Option 1</SelectItem></SelectContent></Select>");
      description := "A dropdown select component";
      category := "form";
      tags := ["select"; "dropdown"; "option"; "choice"; "form"];
      library := None;
      installCommand := None;
      documentationUrl := None |});
  ("checkbox",
   {| componentName := "checkbox";
      displayName := "Checkbox";
      packageName := "@radix-ui/react-checkbox";
      importStatement := ("import { Checkbox } from " +:+ dq +:+ "@/components/ui/checkbox" +:+ dq);
      usage := "<Checkbox />";
      description := "A checkbox input component";
      category := "form";
      tags := ["checkbox"; "check"; "form"; "boolean"; "toggle"];
      library := None;
      installCommand := None;
      documentationUrl := None |});
  ("radio",
   {| componentName := "radio-group";
      displayName := "Radio Group";
      packageName := "@radix-ui/react-radio-group";
      importStatement := ("import { RadioGroup, RadioGroupItem } from " +:+ dq +:+ "@/components/ui/radio-group" +:+ dq);
      usage := ("<RadioGroup><RadioGroupItem value=" +:+ dq +:+ "option1" +:+ dq +:+ " />Option 1</RadioGroup>");
      description := "A radio button group component";
      category := "form";
      tags := ["radio"; "group"; "choice"; "form"; "option"];
      library := None;
      installCommand := None;
      documentationUrl := None |});
  ("card",
   {| componentName := "card";
      displayName := "Card";
      packageName := "@radix-ui/react-card";
      importStatement := ("import { Card, CardContent, CardHeader, CardTitle } from " +:+ dq +:+ "@/components/ui/card" +:+ dq);
      usage := "<Card><CardHeader><CardTitle>Title</CardTitle></CardHeader><CardContent>Content</CardContent></Card>";
      description := "A flexible card component for content display";
      category := "layout";
      tags := ["card"; "container"; "content"; "panel"; "box"];
      library := None;
      installCommand := None;
      documentationUrl := None |});
  ("sheet",
   {| componentName := "sheet";
      displayName := "Sheet";
      packageName := "@radix-ui/react-dialog";
      importStatement := ("import { Sheet, SheetContent, SheetHeader, SheetTitle, SheetTrigger } from " +:+ dq +:+ "@/components/ui/sheet" +:+ dq);
      usage := "<Sheet><SheetTrigger>Open</SheetTrigger><SheetContent><SheetHeader><SheetTitle>Title</SheetTitle></SheetHeader></SheetContent></Sheet>";
      description := "A slide-out panel component";
      category := "layout";
      tags := ["sheet"; "panel"; "drawer"; "slide"; "overlay"];
      library := None;
      installCommand := None;
      documentationUrl := None |});
  ("dialog",
   {| componentName := "dialog";
      displayName := "Dialog";
      packageName := "@radix-ui/react-dialog";
      importStatement := ("import { Dialog, DialogContent, DialogHeader, DialogTitle, DialogTrigger } from " +:+ dq +:+ "@/components/ui/dialog" +:+ dq);
      usage := "<Dialog><DialogTrigger>Open</DialogTrigger><DialogContent><DialogHeader><DialogTitle>Title</DialogTitle></DialogHeader></DialogContent></Dialog>";
      description := "A modal dialog component";
      category := "layout";
      tags := ["dialog"; "modal"; "popup"; "overlay"; "window"];
      library := None;
      installCommand := None;
      documentationUrl := None |});
  ("popover",
   {| componentName := "popover";
      displayName := "Popover";
      packageName := "@radix-ui/react-popover";
      importStatement := ("import { Popover, PopoverContent, PopoverTrigger } from " +:+ dq +:+ "@/components/ui/popover" +:+ dq);
      usage := "<Popover><PopoverTrigger>Open</PopoverTrigger><PopoverContent>Content</PopoverContent></Popover>";
      description := "A floating panel component";
      category := "layout";
      tags := ["popover"; "tooltip"; "floating"; "panel"; "hover"];
      library := None;
      installCommand := None;
      documentationUrl := None |});
  ("tabs",
   {| componentName := "tabs";
      displayName := "Tabs";
      packageName := "@radix-ui/react-tabs";
      importStatement := ("import { Tabs, TabsContent, TabsList, TabsTrigger } from " +:+ dq +:+ "@/components/ui/tabs" +:+ dq);
      usage := ("<Tabs><TabsList><TabsTrigger value=" +:+ dq +:+ "tab1" +:+ dq +:+ ">Tab 1</TabsTrigger></TabsList><TabsContent value=" +:+ dq +:+ "tab1" +:+ dq +:+ ">Content</TabsContent></Tabs>");
      description := "A tabbed interface component";
      category := "navigation";
      tags := ["tabs"; "navigation"; "menu"; "switching"; "panel"];
      library := None;
      installCommand := None;
      documentationUrl := None |});
  ("accordion",
   {| componentName := "accordion";
      displayName := "Accordion";
      packageName := "@radix-ui/react-accordion";
      importStatement := ("import { Accordion, AccordionContent, AccordionItem, AccordionTrigger } from " +:+ dq +:+ "@/components/ui/accordion" +:+ dq);
      usage := "<Accordion><AccordionItem><AccordionTrigger>Title</AccordionTrigger><AccordionContent>Content</AccordionContent></AccordionItem></Accordion>";
      description := "A collapsible content component";
      category := "navigation";
      tags := ["accordion"; "collapse"; "expand"; "content"; "faq"];
      library := None;
      installCommand := None;
      documentationUrl := None |});
  ("breadcrumb",
   {| componentName := "breadcrumb";
      displayName := "Breadcrumb";
      packageName := "@radix-ui/react-breadcrumb";
      importStatement := ("import { Breadcrumb, BreadcrumbItem, BreadcrumbLink, BreadcrumbList, BreadcrumbPage, BreadcrumbSeparator } from " +:+ dq +:+ "@/components/ui/breadcrumb" +:+ dq);
      usage := "<Breadcrumb><BreadcrumbList><BreadcrumbItem><BreadcrumbLink>Home</BreadcrumbLink></BreadcrumbItem><BreadcrumbSeparator /><BreadcrumbItem><BreadcrumbPage>Current</BreadcrumbPage></BreadcrumbItem></BreadcrumbList></Breadcrumb>";
      description := "A navigation breadcrumb component";
      category := "navigation";
      tags := ["breadcrumb"; "navigation"; "path"; "hierarchy"; "location"];
      library := None;
      installCommand := None;
      documentationUrl := None |});
  ("table",
   {| componentName := "table";
      displayName := "Table";
      packageName := "@radix-ui/react-table";
      importStatement := ("import { Table, TableBody, TableCell, TableHead, TableHeader, TableRow } from " +:+ dq +:+ "@/components/ui/table" +:+ dq);
      usage := "<Table><TableHeader><TableRow><TableHead>Header</TableHead></TableRow></TableHeader><TableBody><TableRow><TableCell>Cell</TableCell></TableRow></TableBody></Table>";
      description := "A data table component";
      category := "data";
      tags := ["table"; "data"; "grid"; "rows"; "columns"];
      library := None;
      installCommand := None;
      documentationUrl := None |});
  ("badge",
   {| componentName := "badge";
      displayName := "Badge";
      packageName := "@radix-ui/react-badge";
      importStatement := ("import { Badge } from " +:+ dq +:+ "@/components/ui/badge" +:+ dq);
      usage := ("<Badge variant=" +:+ dq +:+ "default" +:+ dq +:+ ">Badge</Badge>");
      description := "A small status indicator component";
      category := "data";
      tags := ["badge"; "label"; "status"; "indicator"; "tag"];
      library := None;
      installCommand := None;
      documentationUrl := None |});
  ("avatar",
   {| componentName := "avatar";
      displayName := "Avatar";
      packageName := "@radix-ui/react-avatar";
      importStatement := ("import { Avatar, AvatarFallback, AvatarImage } from " +:+ dq +:+ "@/components/ui/avatar" +:+ dq);
      usage := ("<Avatar><AvatarImage src=" +:+ dq +:+ "/img.jpg" +:+ dq +:+ " /><AvatarFallback>CN</AvatarFallback></Avatar>");
      description := "A user profile image component";
      category := "data";
      tags := ["avatar"; "profile"; "image"; "user"; "picture"];
      library := None;
      installCommand := None;
      documentationUrl := None |});
  ("progress",
   {| componentName := "progress";
      displayName := "Progress";
      packageName := "@radix-ui/react-progress";
      importStatement := ("import { Progress } from " +:+ dq +:+ "@/components/ui/progress" +:+ dq);
      usage := "<Progress value={33} />";
      description := "A progress bar component";
      category := "data";
      tags := ["progress"; "bar"; "loading"; "percent"; "status"];
      library := None;
      installCommand := None;
      documentationUrl := None |});
  ("skeleton",
   {| componentName := "skeleton";
      displayName := "Skeleton";
      packageName := "@radix-ui/react-skeleton";
      importStatement := ("import { Skeleton } from " +:+ dq +:+ "@/components/ui/skeleton" +:+ dq);
      usage := ("<Skeleton className=" +:+ dq +:+ "h-4 w-[250px]" +:+ dq +:+ " />");
      description := "A loading skeleton component";
      category := "data";
      tags := ["skeleton"; "loading"; "placeholder"; "shimmer"; "wait"];
      library := None;
      installCommand := None;
      documentationUrl := None |});
  ("alert",
   {| componentName := "alert";
      displayName := "Alert";
      packageName := "@radix-ui/react-alert";
      importStatement := ("import { Alert, AlertDescription, AlertTitle } from " +:+ dq +:+ "@/components/ui/alert" +:+ dq);
      usage := "<Alert><AlertTitle>Title</AlertTitle><AlertDescription>Description</AlertDescription></Alert>";
      description := "An alert notification component";
      category := "feedback";
      tags := ["alert"; "notification"; "message"; "warning"; "info"];
      library := None;
      installCommand := None;
      documentationUrl := None |});
  ("toast",
   {| componentName := "toast";
      displayName := "Toast";
      packageName := "@radix-ui/react-toast";
      importStatement := ("import { Toast, ToastAction, ToastClose, ToastDescription, ToastTitle } from " +:+ dq +:+ "@/components/ui/toast" +:+ dq);
      usage := "<Toast><ToastTitle>Title</ToastTitle><ToastDescription>Description</ToastDescription><ToastAction>Action</ToastAction><ToastClose /></Toast>";
      description := "A toast notification component";
      category := "feedback";
      tags := ["toast"; "notification"; "message"; "popup"; "temporary"];
      library := None;
      installCommand := None;
      documentationUrl := None |});
  ("separator",
   {| componentName := "separator";
      displayName := "Separator";
      packageName := "@radix-ui/react-separator";
      importStatement := ("import { Separator } from " +:+ dq +:+ "@/components/ui/separator" +:+ dq);
      usage := "<Separator />";
      description := "A visual separator component";
      category := "feedback";
      tags := ["separator"; "divider"; "line"; "border"; "split"];
      library := None;
      installCommand := None;
      documentationUrl := None |});
  ("label",
   {| componentName := "label";
      displayName := "Label";
      packageName := "@radix-ui/react-label";
      importStatement := ("import { Label } from " +:+ dq +:+ "@/components/ui/label" +:+ dq);
      usage := ("<Label htmlFor=" +:+ dq +:+ "email" +:+ dq +:+ ">Email</Label>");
      description := "A form label component with accessibility support";
      category := "form";
      tags := ["label"; "form"; "text"; "field"; "accessibility"];
      library := None;
      installCommand := None;
      documentationUrl := None |});
  ("form",
   {| componentName := "form";
      displayName := "Form";
      packageName := "react-hook-form";
      importStatement := ("import { Form, FormControl, FormField, FormItem, FormLabel, FormMessage } from " +:+ dq +:+ "@/components/ui/form" +:+ dq);
      usage := ("<Form {...form}><FormField control={form.control} name=" +:+ dq +:+ "username" +:+ dq +:+ " render={({ field }) => (<FormItem><FormLabel>Username</FormLabel><FormControl><Input {...field} /></FormControl></FormItem>)} /></Form>");
      description := "Form component with React Hook Form integration";
      category := "form";
      tags := ["form"; "validation"; "react-hook-form"; "input"; "submit"];
      library := None;
      installCommand := None;
      documentationUrl := None |});
  ("switch",
   {| componentName := "switch";
      displayName := "Switch";
      packageName := "@radix-ui/react-switch";
      importStatement := ("import { Switch } from " +:+ dq +:+ "@/components/ui/switch" +:+ dq);
      usage := "<Switch checked={enabled} onCheckedChange={setEnabled} />";
      description := "A toggle switch component for binary choices";
      category := "form";
      tags := ["switch"; "toggle"; "boolean"; "on"; "off"];
      library := None;
      installCommand := None;
      documentationUrl := None |});
  ("slider",
   {| componentName := "slider";
      displayName := "Slider";
      packageName := "@radix-ui/react-slider";
      importStatement := ("import { Slider } from " +:+ dq +:+ "@/components/ui/slider" +:+ dq);
      usage := "<Slider defaultValue={[50]} max={100} step={1} />";
      description := "A slider input component for selecting values from a range";
      category := "form";
      tags := ["slider"; "range"; "input"; "value"; "adjust"];
      library := None;
      installCommand := None;
      documentationUrl := None |});
  ("combobox",
   {| componentName := "combobox";
      displayName := "Combobox";
      packageName := "@radix-ui/react-combobox";
      importStatement := ("import { Combobox } from " +:+ dq +:+ "@/components/ui/combobox" +:+ dq);
      usage := "<Combobox value={value} onValueChange={setValue} />";
      description := "A combobox component with search and autocomplete";
      category := "form";
      tags := ["combobox"; "autocomplete"; "search"; "select"; "dropdown"];
      library := None;
      installCommand := None;
      documentationUrl := None |});
  ("toggle",
   {| componentName := "toggle";
      displayName := "Toggle";
      packageName := "@radix-ui/react-toggle";
      importStatement := ("import { Toggle } from " +:+ dq +:+ "@/components/ui/toggle" +:+ dq);
      usage := ("<Toggle aria-label=" +:+ dq +:+ "Toggle italic" +:+ dq +:+ "><Italic /></Toggle>");
      description := "A toggle button component with pressed state";
      category := "form";
      tags := ["toggle"; "button"; "pressed"; "state"; "icon"];
      library := None;
      installCommand := None;
      documentationUrl := None |});
  ("toggle-group",
   {| componentName := "toggle-group";
      displayName := "Toggle Group";
      packageName := "@radix-ui/react-toggle-group";
      importStatement := ("import { ToggleGroup, ToggleGroupItem } from " +:+ dq +:+ "@/components/ui/toggle-group" +:+ dq);
      usage := ("<ToggleGroup type=" +:+ dq +:+ "single" +:+ dq +:+ "><ToggleGroupItem value=" +:+ dq +:+ "a" +:+ dq +:+ ">A</ToggleGroupItem></ToggleGroup>");
      description := "A group of toggle buttons for multiple or single selection";
      category := "form";
      tags := ["toggle"; "group"; "buttons"; "selection"; "multiple"];
      library := None;
      installCommand := None;
      documentationUrl := None |});
  ("input-otp",
   {| componentName := "input-otp";
      displayName := "Input OTP";
      packageName := "@radix-ui/react-input-otp";
      importStatement := ("import { InputOTP, InputOTPGroup, InputOTPSlot } from " +:+ dq +:+ "@/components/ui/input-otp" +:+ dq);
      usage := "<InputOTP maxLength={6}><InputOTPGroup><InputOTPSlot index={0} /></InputOTPGroup></InputOTP>";
      description := "One-time password input component";
      category := "form";
      tags := ["otp"; "password"; "verification"; "code"; "security"];
      library := None;
      installCommand := None;
      documentationUrl := None |});
  ("collapsible",
   {| componentName := "collapsible";
      displayName := "Collapsible";
      packageName := "@radix-ui/react-collapsible";
      importStatement := ("import { Collapsible, CollapsibleContent, CollapsibleTrigger } from " +:+ dq +:+ "@/components/ui/collapsible" +:+ dq);
      usage := "<Collapsible><CollapsibleTrigger>Toggle</CollapsibleTrigger><CollapsibleContent>Content</CollapsibleContent></Collapsible>";
      description := "A collapsible container component";
      category := "layout";
      tags := ["collapsible"; "collapse"; "expand"; "toggle"; "content"];
      library := None;
      installCommand := None;
      documentationUrl := None |});
  ("resizable",
   {| componentName := "resizable";
      displayName := "Resizable";
      packageName := "react-resizable-panels";
      importStatement := ("import { ResizableHandle, ResizablePanel, ResizablePanelGroup } from " +:+ dq +:+ "@/components/ui/resizable" +:+ dq);
      usage := ("<ResizablePanelGroup direction=" +:+ dq +:+ "horizontal" +:+ dq +:+ "><ResizablePanel>Panel 1</ResizablePanel><ResizableHandle /><ResizablePanel>Panel 2</ResizablePanel></ResizablePanelGroup>");
      description := "Resizable panel layout component";
      category := "layout";
      tags := ["resizable"; "panel"; "layout"; "split"; "drag"];
      library := None;
      installCommand := None;
      documentationUrl := None |});
  ("scroll-area",
   {| componentName := "scroll-area";
      displayName := "Scroll Area";
      packageName := "@radix-ui/react-scroll-area";
      importStatement := ("import { ScrollArea } from " +:+ dq +:+ "@/components/ui/scroll-area" +:+ dq);
      usage := ("<ScrollArea className=" +:+ dq +:+ "h-72 w-48" +:+ dq +:+ "><div>Content</div></ScrollArea>");
      description := "A custom styled scrollable area";
      category := "layout";
      tags := ["scroll"; "overflow"; "scrollbar"; "content"; "area"];
      library := None;
      installCommand := None;
      documentationUrl := None |});
  ("aspect-ratio",
   {| componentName := "aspect-ratio";
      displayName := "Aspect Ratio";
      packageName := "@radix-ui/react-aspect-ratio";
      importStatement := ("import { AspectRatio } from " +:+ dq +:+ "@/components/ui/aspect-ratio" +:+ dq);
      usage := ("<AspectRatio ratio={16 / 9}><img src=" +:+ dq +:+ "image.jpg" +:+ dq +:+ " /></AspectRatio>");
      description := "A container that maintains aspect ratio";
      category := "layout";
      tags := ["aspect-ratio"; "responsive"; "image"; "video"; "ratio"];
      library := None;
      installCommand := None;
      documentationUrl := None |});
  ("navigation-menu",
   {| componentName := "navigation-menu";
      displayName := "Navigation Menu";
      packageName := "@radix-ui/react-navigation-menu";
      importStatement := ("import { NavigationMenu, NavigationMenuContent, NavigationMenuItem, NavigationMenuLink, NavigationMenuList, NavigationMenuTrigger } from " +:+ dq +:+ "@/components/ui/navigation-menu" +:+ dq);
      usage := "<NavigationMenu><NavigationMenuList><NavigationMenuItem><NavigationMenuTrigger>Item</NavigationMenuTrigger><NavigationMenuContent>Content</NavigationMenuContent></NavigationMenuItem></NavigationMenuList></NavigationMenu>";
      description := "A complex navigation menu with dropdowns";
      category := "navigation";
      tags := ["navigation"; "menu"; "dropdown"; "nav"; "header"];
      library := None;
      installCommand := None;
      documentationUrl := None |});
  ("menubar",
   {| componentName := "menubar";
      displayName := "Menubar";
      packageName := "@radix-ui/react-menubar";
      importStatement := ("import { Menubar, MenubarContent, MenubarItem, MenubarMenu, MenubarTrigger } from " +:+ dq +:+ "@/components/ui/menubar" +:+ dq);
      usage := "<Menubar><MenubarMenu><MenubarTrigger>File</MenubarTrigger><MenubarContent><MenubarItem>New</MenubarItem></MenubarContent></MenubarMenu></Menubar>";
      description := "A menubar component like desktop applications";
      category := "navigation";
      tags := ["menubar"; "menu"; "desktop"; "navigation"; "toolbar"];
      library := None;
      installCommand := None;
      documentationUrl := None |});
  ("command",
   {| componentName := "command";
      displayName := "Command";
      packageName := "cmdk";
      importStatement := ("import { Command, CommandDialog, CommandEmpty, CommandGroup, CommandInput, CommandItem, CommandList } from " +:+ dq +:+ "@/components/ui/command" +:+ dq);
      usage := ("<Command><CommandInput placeholder=" +:+ dq +:+ "Search..." +:+ dq +:+ " /><CommandList><CommandGroup><CommandItem>Item</CommandItem></CommandGroup></CommandList></Command>");
      description := "A command palette component for keyboard-first navigation";
      category := "navigation";
      tags := ["command"; "palette"; "search"; "keyboard"; "cmdk"];
      library := None;
      installCommand := None;
      documentationUrl := None |});
  ("context-menu",
   {| componentName := "context-menu";
      displayName := "Context Menu";
      packageName := "@radix-ui/react-context-menu";
      importStatement := ("import { ContextMenu, ContextMenuContent, ContextMenuItem, ContextMenuTrigger } from " +:+ dq +:+ "@/components/ui/context-menu" +:+ dq);
      usage := "<ContextMenu><ContextMenuTrigger>Right click</ContextMenuTrigger><ContextMenuContent><ContextMenuItem>Item</ContextMenuItem></ContextMenuContent></ContextMenu>";
      description := "A context menu triggered by right-click";
      category := "navigation";
      tags := ["context-menu"; "right-click"; "menu"; "popup"; "actions"];
      library := None;
      installCommand := None;
      documentationUrl := None |});
  ("dropdown-menu",
   {| componentName := "dropdown-menu";
      displayName := "Dropdown Menu";
      packageName := "@radix-ui/react-dropdown-menu";
      importStatement := ("import { DropdownMenu, DropdownMenuContent, DropdownMenuItem, DropdownMenuTrigger } from " +:+ dq +:+ "@/components/ui/dropdown-menu" +:+ dq);
      usage := "<DropdownMenu><DropdownMenuTrigger>Open</DropdownMenuTrigger><DropdownMenuContent><DropdownMenuItem>Item</DropdownMenuItem></DropdownMenuContent></DropdownMenu>";
      description := "A dropdown menu component";
      category := "navigation";
      tags := ["dropdown"; "menu"; "actions"; "popup"; "select"];
      library := None;
      installCommand := None;
      documentationUrl := None |});
  ("pagination",
   {| componentName := "pagination";
      displayName := "Pagination";
      packageName := "@radix-ui/react-pagination";
      importStatement := ("import { Pagination, PaginationContent, PaginationItem, PaginationLink, PaginationNext, PaginationPrevious } from " +:+ dq +:+ "@/components/ui/pagination" +:+ dq);
      usage := "<Pagination><PaginationContent><PaginationItem><PaginationPrevious /></PaginationItem></PaginationContent></Pagination>";
      description := "A pagination component for navigating pages";
      category := "navigation";
      tags := ["pagination"; "pages"; "navigation"; "next"; "previous"];
      library := None;
      installCommand := None;
      documentationUrl := None |});
  ("calendar",
   {| componentName := "calendar";
      displayName := "Calendar";
      packageName := "react-day-picker";
      importStatement := ("import { Calendar } from " +:+ dq +:+ "@/components/ui/calendar" +:+ dq);
      usage := ("<Calendar mode=" +:+ dq +:+ "single" +:+ dq +:+ " selected={date} onSelect={setDate} />");
      description := "A calendar component for date selection";
      category := "data";
      tags := ["calendar"; "date"; "picker"; "schedule"; "time"];
      library := None;
      installCommand := None;
      documentationUrl := None |});
  ("date-picker",
   {| componentName := "date-picker";
      displayName := "Date Picker";
      packageName := "react-day-picker";
      importStatement := ("import { DatePicker } from " +:+ dq +:+ "@/components/ui/date-picker" +:+ dq);
      usage := "<DatePicker date={date} setDate={setDate} />";
      description := "A date picker component with calendar";
      category := "data";
      tags := ["date"; "picker"; "calendar"; "input"; "select"];
      library := None;
      installCommand := None;
      documentationUrl := None |});
  ("hover-card",
   {| componentName := "hover-card";
      displayName := "Hover Card";
      packageName := "@radix-ui/react-hover-card";
      importStatement := ("import { HoverCard, HoverCardContent, HoverCardTrigger } from " +:+ dq +:+ "@/components/ui/hover-card" +:+ dq);
      usage := "<HoverCard><HoverCardTrigger>Hover</HoverCardTrigger><HoverCardContent>Content</HoverCardContent></HoverCard>";
      description := "A card that appears on hover";
      category := "data";
      tags := ["hover"; "card"; "tooltip"; "popup"; "preview"];
      library := None;
      installCommand := None;
      documentationUrl := None |});
  ("carousel",
   {| componentName := "carousel";
      displayName := "Carousel";
      packageName := "embla-carousel-react";
      importStatement := ("import { Carousel, CarouselContent, CarouselItem, CarouselNext, CarouselPrevious } from " +:+ dq +:+ "@/components/ui/carousel" +:+ dq);
      usage := "<Carousel><CarouselContent><CarouselItem>Item</CarouselItem></CarouselContent></Carousel>";
      description := "A carousel component for sliding content";
      category := "data";
      tags := ["carousel"; "slider"; "images"; "gallery"; "slides"];
      library := None;
      installCommand := None;
      documentationUrl := None |});
  ("tooltip",
   {| componentName := "tooltip";
      displayName := "Tooltip";
      packageName := "@radix-ui/react-tooltip";
      importStatement := ("import { Tooltip, TooltipContent, TooltipProvider, TooltipTrigger } from " +:+ dq +:+ "@/components/ui/tooltip" +:+ dq);
      usage := "<TooltipProvider><Tooltip><TooltipTrigger>Hover</TooltipTrigger><TooltipContent>Content</TooltipContent></Tooltip></TooltipProvider>";
      description := "A tooltip component for hover information";
      category := "data";
      tags := ["tooltip"; "hover"; "info"; "help"; "hint"];
      library := None;
      installCommand := None;
      documentationUrl := None |});
  ("sonner",
   {| componentName := "sonner";
      displayName := "Sonner";
      packageName := "sonner";
      importStatement := ("import { toast } from " +:+ dq +:+ "sonner" +:+ dq);
      usage := ("toast(" +:+ dq +:+ "Event has been created" +:+ dq +:+ ")");
      description := "An alternative toast notification component";
      category := "feedback";
      tags := ["toast"; "notification"; "sonner"; "alert"; "message"];
      library := None;
      installCommand := None;
      documentationUrl := None |});
  ("ai-actions",
   {| componentName := "ai-actions";
      displayName := "AI Actions";
      packageName := "shadcn-ai";
      importStatement := ("import { Actions, Action } from " +:+ dq +:+ "@/components/ai/actions" +:+ dq);
      usage := ("<Actions><Action label=" +:+ dq +:+ "Copy" +:+ dq +:+ ">Copy</Action></Actions>");
      description := "Interactive AI action buttons for React chat interfaces with tooltips and shadcn/ui styling";
      category := "ai";
      tags := ["ai"; "chat"; "actions"; "buttons"; "interactive"];
      library := Some ShadcnAi;
      installCommand := Some "npx shadcn@latest add https://www.shadcn.io/registry/ai.json";
      documentationUrl := Some "https://www.shadcn.io/ai/actions" |});
  ("ai-branch",
   {| componentName := "ai-branch";
      displayName := "AI Branch";
      packageName := "shadcn-ai";
      importStatement := ("import { Branch } from " +:+ dq +:+ "@/components/ai/branch" +:+ dq);
      usage := "<Branch responses={responses} onSelect={handleSelect} />";
      description := "Branch between AI response variations like ChatGPT for exploring multiple answers";
      category := "ai";
      tags := ["ai"; "branch"; "variations"; "chatgpt"; "responses"];
      library := Some ShadcnAi;
      installCommand := Some "npx shadcn@latest add https://www.shadcn.io/registry/ai.json";
      documentationUrl := Some "https://www.shadcn.io/ai/branch" |});
  ("ai-code-block",
   {| componentName := "ai-code-block";
      displayName := "AI Code Block";
      packageName := "shadcn-ai";
      importStatement := ("import { AICodeBlock } from " +:+ dq +:+ "@/components/ai/code-block" +:+ dq);
      usage := ("<AICodeBlock code={code} language=" +:+ dq +:+ "typescript" +:+ dq +:+ " />");
      description := "Syntax-highlighted code blocks with copy buttons for AI responses";
      category := "ai";
      tags := ["ai"; "code"; "syntax"; "highlight"; "copy"];
      library := Some ShadcnAi;
      installCommand := Some "npx shadcn@latest add https://www.shadcn.io/registry/ai.json";
      documentationUrl := Some "https://www.shadcn.io/ai/code-block" |});
  ("ai-conversation",
   {| componentName := "ai-conversation";
      displayName := "AI Conversation";
      packageName := "shadcn-ai";
      importStatement := ("import { AIConversation } from " +:+ dq +:+ "@/components/ai/conversation" +:+ dq);
      usage := "<AIConversation messages={messages} />";
      description := "Auto-scrolling chat container for smooth AI conversations";
      category := "ai";
      tags := ["ai"; "chat"; "conversation"; "scroll"; "streaming"];
      library := Some ShadcnAi;
      installCommand := Some "npx shadcn@latest add https://www.shadcn.io/registry/ai.json";
      documentationUrl := Some "https://www.shadcn.io/ai/conversation" |});
  ("ai-image",
   {| componentName := "ai-image";
      displayName := "AI Image";
      packageName := "shadcn-ai";
      importStatement := ("import { AIImage } from " +:+ dq +:+ "@/components/ai/image" +:+ dq);
      usage := ("<AIImage src={imageUrl} alt=" +:+ dq +:+ "Generated image" +:+ dq +:+ " />");
      description := "Display AI-generated images with loading states and error handling";
      category := "ai";
      tags := ["ai"; "image"; "dalle"; "midjourney"; "generated"];
      library := Some ShadcnAi;
      installCommand := Some "npx shadcn@latest add https://www.shadcn.io/registry/ai.json";
      documentationUrl := Some "https://www.shadcn.io/ai/image" |});
  ("ai-inline-citation",
   {| componentName := "ai-inline-citation";
      displayName := "AI Inline Citation";
      packageName := "shadcn-ai";
      importStatement := ("import { AIInlineCitation } from " +:+ dq +:+ "@/components/ai/inline-citation" +:+ dq);
      usage := "<AIInlineCitation source={source} />";
      description := "Inline citations with hover previews like Perplexity AI";
      category := "ai";
      tags := ["ai"; "citation"; "perplexity"; "sources"; "references"];
      library := Some ShadcnAi;
      installCommand := Some "npx shadcn@latest add https://www.shadcn.io/registry/ai.json";
      documentationUrl := Some "https://www.shadcn.io/ai/inline-citation" |});
  ("ai-loader",
   {| componentName := "ai-loader";
      displayName := "AI Loader";
      packageName := "shadcn-ai";
      importStatement := ("import { AILoader } from " +:+ dq +:+ "@/components/ai/loader" +:+ dq);
      usage := "<AILoader />";
      description := "Animated loader for AI streaming responses showing AI is thinking";
      category := "ai";
      tags := ["ai"; "loader"; "streaming"; "thinking"; "animation"];
      library := Some ShadcnAi;
      installCommand := Some "npx shadcn@latest add https://www.shadcn.io/registry/ai.json";
      documentationUrl := Some "https://www.shadcn.io/ai/loader" |});
  ("ai-message",
   {| componentName := "ai-message";
      displayName := "AI Message";
      packageName := "shadcn-ai";
      importStatement := ("import { AIMessage } from " +:+ dq +:+ "@/components/ai/message" +:+ dq);
      usage := ("<AIMessage role=" +:+ dq +:+ "assistant" +:+ dq +:+ " content=" +:+ dq +:+ "Hello!" +:+ dq +:+ " />");
      description := "Chat messages with avatars distinguishing user from AI";
      category := "ai";
      tags := ["ai"; "message"; "chat"; "avatar"; "conversation"];
      library := Some ShadcnAi;
      installCommand := Some "npx shadcn@latest add https://www.shadcn.io/registry/ai.json";
      documentationUrl := Some "https://www.shadcn.io/ai/message" |});
  ("ai-prompt-input",
   {| componentName := "ai-prompt-input";
      displayName := "AI Prompt Input";
      packageName := "shadcn-ai";
      importStatement := ("import { AIPromptInput } from " +:+ dq +:+ "@/components/ai/prompt-input" +:+ dq);
      usage := "<AIPromptInput onSubmit={handleSubmit} />";
      description := "ChatGPT-style input with auto-resize and model selector";
      category := "ai";
      tags := ["ai"; "input"; "prompt"; "chatgpt"; "textarea"];
      library := Some ShadcnAi;
      installCommand := Some "npx shadcn@latest add https://www.shadcn.io/registry/ai.json";
      documentationUrl := Some "https://www.shadcn.io/ai/prompt-input" |});
  ("ai-reasoning",
   {| componentName := "ai-reasoning";
      displayName := "AI Reasoning";
      packageName := "shadcn-ai";
      importStatement := ("import { AIReasoning } from " +:+ dq +:+ "@/components/ai/reasoning" +:+ dq);
      usage := "<AIReasoning content={reasoning} />";
      description := "Show AI thinking process like Claude's thinking blocks";
      category := "ai";
      tags := ["ai"; "reasoning"; "thinking"; "claude"; "process"];
      library := Some ShadcnAi;
      installCommand := Some "npx shadcn@latest add https://www.shadcn.io/registry/ai.json";
      documentationUrl := Some "https://www.shadcn.io/ai/reasoning" |});
  ("ai-response",
   {| componentName := "ai-response";
      displayName := "AI Response";
      packageName := "shadcn-ai";
      importStatement := ("import { AIResponse } from " +:+ dq +:+ "@/components/ai/response" +:+ dq);
      usage := "<AIResponse content={markdown} />";
      description := "Markdown renderer optimized for streaming AI responses";
      category := "ai";
      tags := ["ai"; "response"; "markdown"; "streaming"; "render"];
      library := Some ShadcnAi;
      installCommand := Some "npx shadcn@latest add https://www.shadcn.io/registry/ai.json";
      documentationUrl := Some "https://www.shadcn.io/ai/response" |});
  ("ai-sources",
   {| componentName := "ai-sources";
      displayName := "AI Sources";
      packageName := "shadcn-ai";
      importStatement := ("import { AISources } from " +:+ dq +:+ "@/components/ai/sources" +:+ dq);
      usage := "<AISources sources={sources} />";
      description := "Expandable source citations like Perplexity's used sources";
      category := "ai";
      tags := ["ai"; "sources"; "citations"; "perplexity"; "references"];
      library := Some ShadcnAi;
      installCommand := Some "npx shadcn@latest add https://www.shadcn.io/registry/ai.json";
      documentationUrl := Some "https://www.shadcn.io/ai/sources" |});
  ("ai-suggestion",
   {| componentName := "ai-suggestion";
      displayName := "AI Suggestion";
      packageName := "shadcn-ai";
      importStatement := ("import { AISuggestion } from " +:+ dq +:+ "@/components/ai/suggestion" +:+ dq);
      usage := "<AISuggestion suggestions={suggestions} onSelect={handleSelect} />";
      description := "Suggestion chips like ChatGPT's follow-up prompts";
      category := "ai";
      tags := ["ai"; "suggestions"; "chips"; "chatgpt"; "prompts"];
      library := Some ShadcnAi;
      installCommand := Some "npx shadcn@latest add https://www.shadcn.io/registry/ai.json";
      documentationUrl := Some "https://www.shadcn.io/ai/suggestion" |});
  ("ai-task",
   {| componentName := "ai-task";
      displayName := "AI Task";
      packageName := "shadcn-ai";
      importStatement := ("import { AITask } from " +:+ dq +:+ "@/components/ai/task" +:+ dq);
      usage := "<AITask tasks={tasks} />";
      description := "Task lists showing AI's work progress like Claude Artifacts";
      category := "ai";
      tags := ["ai"; "task"; "progress"; "claude"; "artifacts"];
      library := Some ShadcnAi;
      installCommand := Some "npx shadcn@latest add https://www.shadcn.io/registry/ai.json";
      documentationUrl := Some "https://www.shadcn.io/ai/task" |});
  ("ai-tool",
   {| componentName := "ai-tool";
      displayName := "AI Tool";
      packageName := "shadcn-ai";
      importStatement := ("import { AITool } from " +:+ dq +:+ "@/components/ai/tool" +:+ dq);
      usage := "<AITool tool={toolCall} />";
      description := "Display AI function calls like OpenAI's tool use";
      category := "ai";
      tags := ["ai"; "tool"; "function"; "openai"; "calls"];
      library := Some ShadcnAi;
      installCommand := Some "npx shadcn@latest add https://www.shadcn.io/registry/ai.json";
      documentationUrl := Some "https://www.shadcn.io/ai/tool" |});
  ("ai-web-preview",
   {| componentName := "ai-web-preview";
      displayName := "AI Web Preview";
      packageName := "shadcn-ai";
      importStatement := ("import { AIWebPreview } from " +:+ dq +:+ "@/components/ai/web-preview" +:+ dq);
      usage := "<AIWebPreview url={generatedUrl} />";
      description := "Preview AI-generated websites like v0.dev's live viewer";
      category := "ai";
      tags := ["ai"; "preview"; "website"; "v0"; "iframe"];
      library := Some ShadcnAi;
      installCommand := Some "npx shadcn@latest add https://www.shadcn.io/registry/ai.json";
      documentationUrl := Some "https://www.shadcn.io/ai/web-preview" |});
  ("glow-button",
   {| componentName := "glow-button";
      displayName := "Glow Button";
      packageName := "shadcn-button";
      importStatement := ("import { GlowButton } from " +:+ dq +:+ "@/components/button/glow-button" +:+ dq);
      usage := "<GlowButton>Click me</GlowButton>";
      description := "Button with animated glow effect and neon styling";
      category := "advanced-button";
      tags := ["button"; "glow"; "neon"; "animated"; "effect"];
      library := Some ShadcnButton;
      installCommand := None;
      documentationUrl := Some "https://www.shadcn.io/button/glow-button" |});
  ("shimmer-button",
   {| componentName := "shimmer-button";
      displayName := "Shimmer Button";
      packageName := "shadcn-button";
      importStatement := ("import { ShimmerButton } from " +:+ dq +:+ "@/components/button/shimmer-button" +:+ dq);
      usage := "<ShimmerButton>Click me</ShimmerButton>";
      description := "Button with shimmer animation effect";
      category := "advanced-button";
      tags := ["button"; "shimmer"; "shine"; "animated"; "effect"];
      library := Some ShadcnButton;
      installCommand := None;
      documentationUrl := Some "https://www.shadcn.io/button/shimmer-button" |});
  ("magnetic-button",
   {| componentName := "magnetic-button";
      displayName := "Magnetic Button";
      packageName := "shadcn-button";
      importStatement := ("import { MagneticButton } from " +:+ dq +:+ "@/components/button/magnetic-button" +:+ dq);
      usage := "<MagneticButton>Click me</MagneticButton>";
      description := "Button with magnetic hover effect that follows cursor";
      category := "advanced-button";
      tags := ["button"; "magnetic"; "hover"; "cursor"; "interactive"];
      library := Some ShadcnButton;
      installCommand := None;
      documentationUrl := Some "https://www.shadcn.io/button/magnetic-button" |});
  ("pulse-button",
   {| componentName := "pulse-button";
      displayName := "Pulse Button";
      packageName := "shadcn-button";
      importStatement := ("import { PulseButton } from " +:+ dq +:+ "@/components/button/pulse-button" +:+ dq);
      usage := "<PulseButton>Click me</PulseButton>";
      description := "Button with pulsing animation effect";
      category := "advanced-button";
      tags := ["button"; "pulse"; "animation"; "heartbeat"; "effect"];
      library := Some ShadcnButton;
      installCommand := None;
      documentationUrl := Some "https://www.shadcn.io/button/pulse-button" |});
  ("gradient-button",
   {| componentName := "gradient-button";
      displayName := "Gradient Button";
      packageName := "shadcn-button";
      importStatement := ("import { GradientButton } from " +:+ dq +:+ "@/components/button/gradient-button" +:+ dq);
      usage := "<GradientButton>Click me</GradientButton>";
      description := "Button with animated gradient background";
      category := "advanced-button";
      tags := ["button"; "gradient"; "colorful"; "animated"; "background"];
      library := Some ShadcnButton;
      installCommand := None;
      documentationUrl := Some "https://www.shadcn.io/button/gradient-button" |});
  ("neon-button",
   {| componentName := "neon-button";
      displayName := "Neon Button";
      packageName := "shadcn-button";
      importStatement := ("import { NeonButton } from " +:+ dq +:+ "@/components/button/neon-button" +:+ dq);
      usage := "<NeonButton>Click me</NeonButton>";
      description := "Button with neon glow effect";
      category := "advanced-button";
      tags := ["button"; "neon"; "glow"; "cyberpunk"; "effect"];
      library := Some ShadcnButton;
      installCommand := None;
      documentationUrl := Some "https://www.shadcn.io/button/neon-button" |});
  ("shine-button",
   {| componentName := "shine-button";
      displayName := "Shine Button";
      packageName := "shadcn-button";
      importStatement := ("import { ShineButton } from " +:+ dq +:+ "@/components/button/shine-button" +:+ dq);
      usage := "<ShineButton>Click me</ShineButton>";
      description := "Button with shine sweep animation";
      category := "advanced-button";
      tags := ["button"; "shine"; "sweep"; "animated"; "effect"];
      library := Some ShadcnButton;
      installCommand := None;
      documentationUrl := Some "https://www.shadcn.io/button/shine-button" |});
  ("copy-button",
   {| componentName := "copy-button";
      displayName := "Copy Button";
      packageName := "shadcn-button";
      importStatement := ("import { CopyButton } from " +:+ dq +:+ "@/components/button/copy-button" +:+ dq);
      usage := ("<CopyButton text=" +:+ dq +:+ "Copy this" +:+ dq +:+ " />");
      description := "Button for copying to clipboard with visual feedback";
      category := "advanced-button";
      tags := ["button"; "copy"; "clipboard"; "feedback"; "utility"];
      library := Some ShadcnButton;
      installCommand := None;
      documentationUrl := Some "https://www.shadcn.io/button/copy" |});
  ("expanding-button",
   {| componentName := "expanding-button";
      displayName := "Expanding Button";
      packageName := "shadcn-button";
      importStatement := ("import { ExpandingButton } from " +:+ dq +:+ "@/components/button/expanding-button" +:+ dq);
      usage := "<ExpandingButton>Click me</ExpandingButton>";
      description := "Button that expands on hover";
      category := "advanced-button";
      tags := ["button"; "expand"; "hover"; "animated"; "growth"];
      library := Some ShadcnButton;
      installCommand := None;
      documentationUrl := Some "https://www.shadcn.io/button/expanding-button" |});
  ("tilt-button",
   {| componentName := "tilt-button";
      displayName := "Tilt Button";
      packageName := "shadcn-button";
      importStatement := ("import { TiltButton } from " +:+ dq +:+ "@/components/button/tilt-button" +:+ dq);
      usage := "<TiltButton>Click me</TiltButton>";
      description := "Button with 3D tilt effect on hover";
      category := "advanced-button";
      tags := ["button"; "tilt"; "3d"; "hover"; "perspective"];
      library := Some ShadcnButton;
      installCommand := None;
      documentationUrl := Some "https://www.shadcn.io/button/tilt-button" |});
  ("gradient-text",
   {| componentName := "gradient-text";
      displayName := "Gradient Text";
      packageName := "shadcn-text";
      importStatement := ("import { GradientText } from " +:+ dq +:+ "@/components/text/gradient-text" +:+ dq);
      usage := "<GradientText>Beautiful Text</GradientText>";
      description := "Text with smooth flowing gradient colors";
      category := "text";
      tags := ["text"; "gradient"; "animated"; "colorful"; "typography"];
      library := Some ShadcnText;
      installCommand := None;
      documentationUrl := Some "https://www.shadcn.io/text/gradient-text" |});
  ("typing-text",
   {| componentName := "typing-text";
      displayName := "Typing Text";
      packageName := "shadcn-text";
      importStatement := ("import { TypingText } from " +:+ dq +:+ "@/components/text/typing-text" +:+ dq);
      usage := ("<TypingText text=" +:+ dq +:+ "Hello World" +:+ dq +:+ " />");
      description := "Typewriter effect with realistic typing animation";
      category := "text";
      tags := ["text"; "typing"; "typewriter"; "animated"; "effect"];
      library := Some ShadcnText;
      installCommand := None;
      documentationUrl := Some "https://www.shadcn.io/text/typing-text" |});
  ("shimmering-text",
   {| componentName := "shimmering-text";
      displayName := "Shimmering Text";
      packageName := "shadcn-text";
      importStatement := ("import { ShimmeringText } from " +:+ dq +:+ "@/components/text/shimmering-text" +:+ dq);
      usage := "<ShimmeringText>Shimmer Text</ShimmeringText>";
      description := "Text with smooth shimmer wave animation";
      category := "text";
      tags := ["text"; "shimmer"; "wave"; "animated"; "effect"];
      library := Some ShadcnText;
      installCommand := None;
      documentationUrl := Some "https://www.shadcn.io/text/shimmering-text" |});
  ("counting-number",
   {| componentName := "counting-number";
      displayName := "Counting Number";
      packageName := "shadcn-text";
      importStatement := ("import { CountingNumber } from " +:+ dq +:+ "@/components/text/counting-number" +:+ dq);
      usage := "<CountingNumber value={1000} />";
      description := "Animated counting number with spring animations";
      category := "text";
      tags := ["text"; "number"; "counting"; "animated"; "spring"];
      library := Some ShadcnText;
      installCommand := None;
      documentationUrl := Some "https://www.shadcn.io/text/counting-number" |});
  ("sliding-number",
   {| componentName := "sliding-number";
      displayName := "Sliding Number";
      packageName := "shadcn-text";
      importStatement := ("import { SlidingNumber } from " +:+ dq +:+ "@/components/text/sliding-number" +:+ dq);
      usage := "<SlidingNumber value={1234} />";
      description := "Number with digit-by-digit sliding animations";
      category := "text";
      tags := ["text"; "number"; "sliding"; "animated"; "counter"];
      library := Some ShadcnText;
      installCommand := None;
      documentationUrl := Some "https://www.shadcn.io/text/sliding-number" |});
  ("rolling-text",
   {| componentName := "rolling-text";
      displayName := "Rolling Text";
      packageName := "shadcn-text";
      importStatement := ("import { RollingText } from " +:+ dq +:+ "@/components/text/rolling-text" +:+ dq);
      usage := ("<RollingText text=" +:+ dq +:+ "Rolling" +:+ dq +:+ " />");
      description := "3D rolling text with character reveals";
      category := "text";
      tags := ["text"; "rolling"; "3d"; "animated"; "reveal"];
      library := Some ShadcnText;
      installCommand := None;
      documentationUrl := Some "https://www.shadcn.io/text/rolling-text" |});
  ("rotating-text",
   {| componentName := "rotating-text";
      displayName := "Rotating Text";
      packageName := "shadcn-text";
      importStatement := ("import { RotatingText } from " +:+ dq +:+ "@/components/text/rotating-text" +:+ dq);
      usage := ("<RotatingText words={[" +:+ dq +:+ "Hello" +:+ dq +:+ ", " +:+ dq +:+ "World" +:+ dq +:+ "]} />");
      description := "Text with smooth vertical rotation transitions";
      category := "text";
      tags := ["text"; "rotating"; "animated"; "transition"; "cycle"];
      library := Some ShadcnText;
      installCommand := None;
      documentationUrl := Some "https://www.shadcn.io/text/rotating-text" |});
  ("splitting-text",
   {| componentName := "splitting-text";
      displayName := "Splitting Text";
      packageName := "shadcn-text";
      importStatement := ("import { SplittingText } from " +:+ dq +:+ "@/components/text/splitting-text" +:+ dq);
      usage := ("<SplittingText text=" +:+ dq +:+ "Split Text" +:+ dq +:+ " />");
      description := "Text with staggered character, word, or line reveals";
      category := "text";
      tags := ["text"; "splitting"; "stagger"; "animated"; "reveal"];
      library := Some ShadcnText;
      installCommand := None;
      documentationUrl := Some "https://www.shadcn.io/text/splitting-text" |});
  ("highlight-text",
   {| componentName := "highlight-text";
      displayName := "Highlight Text";
      packageName := "shadcn-text";
      importStatement := ("import { HighlightText } from " +:+ dq +:+ "@/components/text/highlight-text" +:+ dq);
      usage := "<HighlightText>Highlighted Text</HighlightText>";
      description := "Text with smooth expanding background highlights";
      category := "text";
      tags := ["text"; "highlight"; "background"; "animated"; "emphasis"];
      library := Some ShadcnText;
      installCommand := None;
      documentationUrl := Some "https://www.shadcn.io/text/highlight-text" |});
  ("writing-text",
   {| componentName := "writing-text";
      displayName := "Writing Text";
      packageName := "shadcn-text";
      importStatement := ("import { WritingText } from " +:+ dq +:+ "@/components/text/writing-text" +:+ dq);
      usage := ("<WritingText text=" +:+ dq +:+ "Writing Text" +:+ dq +:+ " />");
      description := "Text with word-by-word reveal animation";
      category := "text";
      tags := ["text"; "writing"; "reveal"; "animated"; "progressive"];
      library := Some ShadcnText;
      installCommand := None;
      documentationUrl := Some "https://www.shadcn.io/text/writing-text" |})
].

Arguments COMPONENT_LIBRARY : simpl never.

(** The own entry of [COMPONENT_LIBRARY] under [key], if there is one:
    the part of [COMPONENT_LIBRARY[key]] that the table itself answers.
    What the table inherits is added by [libraryAt] below. *)
Definition libraryGet (key : string) : option ComponentInfo :=
  snd <$> List.find (fun entry => String.eqb (fst entry) key) COMPONENT_LIBRARY.

(** What a lookup hands back: a record, a member inherited from
    [Object.prototype] (named by its key), [undefined] or [null]. *)
Inductive Lookup :=
| Found (c : ComponentInfo)
| Inherited (member : string)
| Undefined
| Null.

(** [COMPONENT_LIBRARY[key]] as the program evaluates it: the own entry
    under [key], or else the member inherited under that name, or else
    [undefined]. *)
Definition libraryAt (key : string) : Lookup :=
  match libraryGet key with
  | Some c => Found c
  | None => if inherits key then Inherited key else Undefined
  end.

#[global] Instance Lookup_eq_dec : EqDecision Lookup.
Proof. solve_decision. Defined.

(** The alias table of [findComponent]. *)
Definition aliasEntries : list (string * string) :=
  [
    ("btn", "button");
    ("text", "input");
    ("textfield", "input");
    ("text area", "textarea");
    ("text-area", "textarea");
    ("dropdown", "select");
    ("check", "checkbox");
    ("check box", "checkbox");
    ("radio button", "radio-group");
    ("radiobutton", "radio-group");
    ("container", "card");
    ("panel", "card");
    ("box", "card");
    ("drawer", "sheet");
    ("sidebar", "sheet");
    ("modal", "dialog");
    ("tooltip", "popover");
    ("menu", "tabs");
    ("nav", "tabs");
    ("collapse", "accordion");
    ("expand", "accordion");
    ("navigation", "breadcrumb");
    ("path", "breadcrumb");
    ("data", "table");
    ("grid", "table");
    ("label", "badge");
    ("tag", "badge");
    ("status", "badge");
    ("profile", "avatar");
    ("user", "avatar");
    ("image", "avatar");
    ("loading", "progress");
    ("percent", "progress");
    ("bar", "progress");
    ("wait", "skeleton");
    ("placeholder", "skeleton");
    ("shimmer", "skeleton");
    ("notification", "alert");
    ("message", "alert");
    ("warning", "alert");
    ("info", "alert");
    ("popup", "toast");
    ("temporary", "toast");
    ("divider", "separator");
    ("line", "separator");
    ("border", "separator")
  ].

Definition aliases : gmap string string := list_to_map aliasEntries.

(** [aliases[normalizedQuery]], when truthy.  The alias object inherits
    the same members as the component table, whose test comes first and
    returns for each of their names; here only own entries are left. *)
Definition aliasOf (normalizedQuery : string) : option string :=
  match aliases !! normalizedQuery with
  | Some target => if truthy target then Some target else None
  | None => None
  end.

(** The test of the tag-based search: some tag contains the query or
    is contained in it. *)
Definition tagMatches (normalizedQuery : string) (entry : string * ComponentInfo) : bool :=
  existsb (fun tag => includes tag normalizedQuery || includes normalizedQuery tag)
          (tags (snd entry)).

(** The test of the partial match: the key contains the query or is
    contained in it. *)
Definition keyMatches (normalizedQuery : string) (entry : string * ComponentInfo) : bool :=
  includes (fst entry) normalizedQuery || includes normalizedQuery (fst entry).

(** Each of the two loops returns at the first entry that passes its
    test. *)
Definition tagSearch (normalizedQuery : string) : option ComponentInfo :=
  snd <$> List.find (tagMatches normalizedQuery) COMPONENT_LIBRARY.

Definition nameSearch (normalizedQuery : string) : option ComponentInfo :=
  snd <$> List.find (keyMatches normalizedQuery) COMPONENT_LIBRARY.

Definition findComponent (query : string) : Lookup :=
  let normalizedQuery := trim (toLowerCase query) in
  match libraryAt normalizedQuery with
  | Found c => Found c
  | Inherited member => Inherited member
  | _ =>
      match aliasOf normalizedQuery with
      | Some target => libraryAt target
      | None =>
          match tagSearch normalizedQuery with
          | Some c => Found c
          | None =>
              match nameSearch normalizedQuery with
              | Some c => Found c
              | None => Null
              end
          end
      end
  end.

Definition getAllComponents : list ComponentInfo := map snd COMPONENT_LIBRARY.

Definition getComponentsByCategory (cat : string) : list ComponentInfo :=
  List.filter (fun c => String.eqb (category c) cat) (map snd COMPONENT_LIBRARY).

Record ScoredComponent := { component : ComponentInfo; score : Z }.

(** The score of one component: the body of the loop of
    [searchComponentsRanked]. *)
Definition componentScore (c : ComponentInfo) (normalizedQuery : string) : Z :=
  let score := 0 in
  let score :=
    if String.eqb (componentName c) normalizedQuery then score + 100
    else if String.eqb (toLowerCase (displayName c)) normalizedQuery then score + 90
    else if startsWith (componentName c) normalizedQuery then score + 80
    else if startsWith (toLowerCase (displayName c)) normalizedQuery then score + 70
    else if includes (componentName c) normalizedQuery then score + 60
    else if includes (toLowerCase (displayName c)) normalizedQuery then score + 50
    else if existsb (fun tag => String.eqb tag normalizedQuery) (tags c) then score + 40
    else if existsb (fun tag => includes tag normalizedQuery) (tags c) then score + 30
    else if includes (toLowerCase (description c)) normalizedQuery then score + 20
    else score in
  let queryWords := splitWhiteSpace normalizedQuery in
  if (1 <? length queryWords)%nat then
    let descriptionLower := toLowerCase (description c) in
    let matchedWords :=
      length (List.filter (fun word => includes descriptionLower word) queryWords) in
    score + Z.of_nat matchedWords * 5
  else score.

(** The loop: components whose score is positive are pushed in turn. *)
Fixpoint scoreComponents (normalizedQuery : string) (cs : list ComponentInfo)
  : list ScoredComponent :=
  match cs with
  | [] => []
  | c :: rest =>
      let s := componentScore c normalizedQuery in
      if s >? 0
      then {| component := c; score := s |} :: scoreComponents normalizedQuery rest
      else scoreComponents normalizedQuery rest
  end.

(** The components a search runs over: [category ? filter : all]. *)
Definition componentsToSearch (categoryFilter : option string) : list ComponentInfo :=
  match categoryFilter with
  | Some cat =>
      if truthy cat
      then List.filter (fun c => String.eqb (category c) cat) (map snd COMPONENT_LIBRARY)
      else map snd COMPONENT_LIBRARY
  | None => map snd COMPONENT_LIBRARY
  end.

(** [limit] is [None] when the argument is left out; it then is 10. *)
Definition searchComponentsRanked
  (query : string) (categoryFilter : option string) (limit : option Z)
  : list ComponentInfo :=
  let limit := default 10 limit in
  let normalizedQuery := trim (toLowerCase query) in
  let scoredComponents :=
    scoreComponents normalizedQuery (componentsToSearch categoryFilter) in
  map component
    (slice0 limit (sortBy (fun a b => score b - score a) scoredComponents)).

(** [COMPONENT_LIBRARY[componentName] || null] *)
Definition getComponentByName (name : string) : Lookup :=
  match libraryAt name with
  | Found c => Found c
  | Inherited member => Inherited member
  | _ => Null
  end.

(** [searchComponents]: the search without ranking. *)
Definition searchComponents (searchText : string) : list ComponentInfo :=
  let normalizedSearch := trim (toLowerCase searchText) in
  List.filter
    (fun c =>
       includes (componentName c) normalizedSearch
       || includes (toLowerCase (displayName c)) normalizedSearch
       || includes (toLowerCase (description c)) normalizedSearch
       || existsb (fun tag => includes tag normalizedSearch) (tags c))
    (map snd COMPONENT_LIBRARY).

End ComponentFinder.

Import ComponentFinder.

(** ** The component service: [listComponents] *)

Module ComponentService.

Record ListComponentsRequest := {
  query : string;
  category : option string;
  limit : option Z
}.

Record ComponentSummary := {
  name : string;
  displayName : string;
  description : string;
  summaryCategory : string;
  library : option Library
}.

Definition summarize (c : ComponentInfo) : ComponentSummary :=
  {| name := componentName c;
     displayName := ComponentFinder.displayName c;
     description := ComponentFinder.description c;
     summaryCategory := ComponentFinder.category c;
     library := ComponentFinder.library c |}.

(** [limit || 100]: a limit left out or equal to 0 is replaced. *)
Definition limitOr100 (limit : option Z) : Z :=
  match limit with
  | Some l => if l =? 0 then 100 else l
  | None => 100
  end.

Definition listComponents (request : ListComponentsRequest) : list ComponentSummary :=
  let components :=
    if negb (truthy (query request)) || String.eqb (toLowerCase (query request)) "all"
    then
      let components :=
        match category request with
        | Some cat => if truthy cat then getComponentsByCategory cat else getAllComponents
        | None => getAllComponents
        end in
      match limit request with
      | Some l => if negb (l =? 0) && (l >? 0) then slice0 l components else components
      | None => components
      end
    else
      searchComponentsRanked (query request) (category request)
                             (Some (limitOr100 (limit request))) in
  map summarize components.

(** [determineInstallPath] *)
Definition determineInstallPath (currentFile projectPath : string) : string :=
  let defaultPath := "src/components/ui" in
  let relativePath := toLowerCase (removeFirst currentFile projectPath) in
  let fromComponents :=
    if includes relativePath "/components/" then
      let pathParts := splitOn "/" relativePath in
      match findIndex (fun part => String.eqb part "components") pathParts with
      | Some componentsIndex =>
          if (componentsIndex <? length pathParts - 1)%nat
          then Some (join "/" (take (componentsIndex + 1) pathParts) +:+ "/ui")
          else None
      | None => None
      end
    else None in
  match fromComponents with
  | Some path => path
  | None =>
      if includes relativePath "/src/" then "src/components/ui"
      else if includes relativePath "/app/" then "app/components/ui"
      else if includes relativePath "/lib/" then "lib/components/ui"
      else defaultPath
  end.

Record ComponentRequest := {
  message : string;
  searchQuery : string;
  absolutePathToCurrentFile : string;
  absolutePathToProjectDirectory : string;
  standaloneRequestQuery : string
}.

Record ComponentDetailsRequest := {
  detailsComponentName : string;
  detailsPathToCurrentFile : string;
  detailsPathToProjectDirectory : string
}.

(** The responses of [getComponent] and [getComponentDetails].  Each is
    a Markdown text; the embedding keeps which generator writes it and
    from what. *)
Inductive ComponentResponse :=
| notFoundResponse (searchQuery projectPath : string)
| componentResponse (c : ComponentInfo) (installPath projectPath : string)
| detailedComponentResponse (c : ComponentInfo) (installPath projectPath : string)
| componentTypeError.

(** [getComponent]: [null] and [undefined] are both falsy.  An inherited
    member is truthy and goes to the generator of the response, which
    raises a [TypeError] on it: the member has no [category], and
    [capitalizeFirst] reads [charAt] of [undefined]. *)
Definition getComponent (request : ComponentRequest) : ComponentResponse :=
  match findComponent (searchQuery request) with
  | Found componentInfo =>
      componentResponse componentInfo
        (determineInstallPath (absolutePathToCurrentFile request)
                              (absolutePathToProjectDirectory request))
        (absolutePathToProjectDirectory request)
  | Inherited _ => componentTypeError
  | _ => notFoundResponse (searchQuery request) (absolutePathToProjectDirectory request)
  end.

Definition getComponentDetails (request : ComponentDetailsRequest) : ComponentResponse :=
  match getComponentByName (detailsComponentName request) with
  | Found componentInfo =>
      detailedComponentResponse componentInfo
        (determineInstallPath (detailsPathToCurrentFile request)
                              (detailsPathToProjectDirectory request))
        (detailsPathToProjectDirectory request)
  | Inherited _ => componentTypeError
  | _ => notFoundResponse (detailsComponentName request)
                          (detailsPathToProjectDirectory request)
  end.

End ComponentService.

(** ** The component matcher: [matchComponentsFromAnalysis] *)

Module ComponentMatcher.
















End ComponentMatcher.

(** ** The template conversation: [processConversationStep] *)

Module TemplateConversation.

Record ConversationState := {
  currentStep : Z;
  totalSteps : Z;
  answers : gmap string string;
  nextQuestion : option string
}.

Record TemplateAnswers := {
  purpose : string;
  targetAudience : string;
  desiredAction : string;
  style : string
}.

Record TemplateSection := {
  name : string;
  priority : Z;
  tailarkComponent : string;
  description : string
}.

Record Question := {
  question : string;
  options : list string;
  key : string
}.

Definition CONVERSATION_QUESTIONS : gmap Z Question :=
  list_to_map [
    (1, {| question := "What is this landing page for?";
           options := ["SaaS Product"; "Mobile App"; "Ecommerce Product";
                       "Personal Portfolio"; "Event"; "Other"];
           key := "purpose" |});
    (2, {| question := "Who is your target audience?";
           options := ["Customers"; "Investors"; "Partners"; "Job Applicants";
                       "General Users"];
           key := "targetAudience" |});
    (3, {| question := "What action do you want visitors to take?";
           options := ["Sign up"; "Request a demo"; "Buy";
                       "Subscribe to newsletter"; "Contact you"];
           key := "desiredAction" |});
    (4, {| question := "What style or tone do you prefer?";
           options := ["Professional"; "Friendly"; "Creative"; "Minimalist"];
           key := "style" |})
  ].

Definition section (n : string) (p : Z) (t d : string) : TemplateSection :=
  {| name := n; priority := p; tailarkComponent := t; description := d |}.

(** The sections pushed for each purpose. *)
Definition purposeSections (p : string) : list TemplateSection :=
  if String.eqb p "SaaS Product" then
    [section "Features" 9 "features" "Product features and benefits";
     section "Pricing" 8 "pricing" "Pricing plans and tiers";
     section "Testimonials" 7 "testimonials" "Customer testimonials and reviews"]
  else if String.eqb p "Mobile App" then
    [section "Features" 9 "features" "App features and functionality";
     section "Stats" 8 "stats" "Download numbers and user stats";
     section "Testimonials" 7 "testimonials" "User reviews and ratings"]
  else if String.eqb p "Ecommerce Product" then
    [section "Features" 9 "features" "Product features and benefits";
     section "Testimonials" 8 "testimonials" "Customer reviews";
     section "Content" 7 "content" "Product details and specifications"]
  else if String.eqb p "Personal Portfolio" then
    [section "Content" 9 "content" "About section and experience";
     section "Testimonials" 8 "testimonials" "Client testimonials";
     section "Team" 7 "team" "Personal information"]
  else if String.eqb p "Event" then
    [section "Content" 9 "content" "Event details and agenda";
     section "Stats" 8 "stats" "Event statistics and highlights";
     section "Testimonials" 7 "testimonials" "Previous event feedback"]
  else [].

Definition audienceSections (a : string) : list TemplateSection :=
  if String.eqb a "Investors" then
    [section "Stats" 8 "stats" "Key metrics and growth numbers";
     section "Team" 7 "team" "Founding team and advisors"]
  else [].

Definition actionSections (a : string) : list TemplateSection :=
  if String.eqb a "Sign up" then
    [section "Call to Action" 9 "call-to-action" "Sign up form and benefits"]
  else if String.eqb a "Request a demo" then
    [section "Call to Action" 9 "call-to-action" "Demo request form"]
  else if String.eqb a "Buy" then
    [section "Pricing" 9 "pricing" "Product pricing and purchase options"]
  else if String.eqb a "Subscribe to newsletter" then
    [section "Call to Action" 8 "call-to-action" "Newsletter signup form"]
  else if String.eqb a "Contact you" then
    [section "Call to Action" 8 "call-to-action" "Contact form and information"]
  else [].

Definition selectSectionsForTemplate (a : TemplateAnswers) : list TemplateSection :=
  let sections :=
    [section "Hero Section" 10 "hero" "Main landing section with headline and CTA"]
    ++ purposeSections (purpose a)
    ++ audienceSections (targetAudience a)
    ++ actionSections (desiredAction a)
    ++ [section "Footer" 1 "footer" "Site footer with links and information"] in
  sortBy (fun a b => priority b - priority a) sections.

(** The generated template.  The source renders it as Markdown text;
    the text is determined by the four answers and by the selected
    sections, which is what the embedding keeps. *)
Record Template := {
  configuration : TemplateAnswers;
  recommendedSections : list TemplateSection
}.

Definition generateTemplateFromAnswers (a : TemplateAnswers) : Template :=
  {| configuration := a; recommendedSections := selectSectionsForTemplate a |}.

(** The result of a step: a question with the updated state, the
    template, or the [TypeError] raised by reading [question] of
    [undefined] when the next step has no question. *)
Inductive StepResult :=
| question_ (data : ConversationState)
| template_ (data : Template)
| typeError.

(** [answers.k || ''] *)
Definition answerOr (answers : gmap string string) (k : string) : string :=
  default "" (answers !! k).

Definition processConversationStep
  (conversationState : ConversationState) (userAnswer : string) : StepResult :=
  let currentStep := currentStep conversationState in
  let answers := answers conversationState in
  let answers :=
    match CONVERSATION_QUESTIONS !! currentStep with
    | Some currentQuestion => <[key currentQuestion := userAnswer]> answers
    | None => answers
    end in
  if currentStep >=? 4 then
    let templateAnswers :=
      {| purpose := answerOr answers "purpose";
         targetAudience := answerOr answers "targetAudience";
         desiredAction := answerOr answers "desiredAction";
         style := answerOr answers "style" |} in
    template_ (generateTemplateFromAnswers templateAnswers)
  else
    let nextStep := currentStep + 1 in
    match CONVERSATION_QUESTIONS !! nextStep with
    | Some nextQuestion =>
        question_ {| currentStep := nextStep;
                     totalSteps := 4;
                     answers := answers;
                     nextQuestion := Some (question nextQuestion) |}
    | None => typeError
    end.

(** [getNextQuestion] *)
Definition getNextQuestion (currentStep : Z) : option string :=
  question <$> (CONVERSATION_QUESTIONS !! currentStep).

(** The dispatch of [getTemplate] on the state that the request
    carries.  Each response is a text; the embedding keeps which text
    it is and what it is rendered from. *)
Inductive TemplateResponse :=
| firstQuestionText
| nextQuestionText (nextState : ConversationState)
| templateText (t : Template)
| conversationTemplateText (st : ConversationState)
| responseTypeError.

Definition getTemplate (message : string) (conversationState : option ConversationState)
  : TemplateResponse :=
  match conversationState with
  | None => firstQuestionText
  | Some st =>
      if currentStep st <=? 4 then
        match processConversationStep st message with
        | question_ nextState => nextQuestionText nextState
        | template_ t => templateText t
        | typeError => responseTypeError
        end
      else conversationTemplateText st
  end.

(** [generateSectionsFromAnswers] of the template service, which
    [generateTemplateFromConversation] renders for a state beyond
    step 4. *)
Definition servicePurposeSections (p : string) : list TemplateSection :=
  if String.eqb p "SaaS Product" then
    [section "Features" 9 "features" "Product features and benefits";
     section "Pricing" 8 "pricing" "Pricing plans and tiers";
     section "Testimonials" 7 "testimonials" "Customer testimonials"]
  else if String.eqb p "Mobile App" then
    [section "Features" 9 "features" "App features and functionality";
     section "Stats" 8 "stats" "Download numbers and user stats";
     section "Testimonials" 7 "testimonials" "User reviews and ratings"]
  else if String.eqb p "Ecommerce Product" then
    [section "Features" 9 "features" "Product features and benefits";
     section "Testimonials" 8 "testimonials" "Customer reviews";
     section "Content" 7 "content" "Product details"]
  else if String.eqb p "Personal Portfolio" then
    [section "Content" 9 "content" "About section and experience";
     section "Testimonials" 8 "testimonials" "Client testimonials";
     section "Team" 7 "team" "Personal information"]
  else if String.eqb p "Event" then
    [section "Content" 9 "content" "Event details and agenda";
     section "Stats" 8 "stats" "Event statistics";
     section "Testimonials" 7 "testimonials" "Previous event feedback"]
  else [].

Definition serviceAudienceSections (a : string) : list TemplateSection :=
  if String.eqb a "Investors" then
    [section "Stats" 8 "stats" "Key metrics and growth";
     section "Team" 7 "team" "Founding team and advisors"]
  else [].

Definition serviceActionSections (a : string) : list TemplateSection :=
  if String.eqb a "Sign up" || String.eqb a "Request a demo"
     || String.eqb a "Subscribe to newsletter" || String.eqb a "Contact you"
  then [section "Call to Action" 9 "call-to-action" "Action-oriented section"]
  else if String.eqb a "Buy" then [section "Pricing" 9 "pricing" "Product pricing"]
  else [].

Definition generateSectionsFromAnswers (a : TemplateAnswers) : list TemplateSection :=
  let sections :=
    [section "Hero Section" 10 "hero" "Main landing section with headline and CTA"]
    ++ servicePurposeSections (purpose a)
    ++ serviceAudienceSections (targetAudience a)
    ++ serviceActionSections (desiredAction a)
    ++ [section "Footer" 1 "footer" "Site footer with links"] in
  sortBy (fun a b => priority b - priority a) sections.

End TemplateConversation.

(** * Notions used by the statements *)

(** *** Ranked search *)

(** The query as the search and the lookup see it. *)
Definition normalize (query : string) : string := trim (toLowerCase query).

(** The tier ladder: the rules in their order, each with its score. *)
Definition ladder (c : ComponentInfo) (q : string) : list (Prop * Z) :=
  [ (componentName c = q, 100);
    (toLowerCase (displayName c) = q, 90);
    (startsWith (componentName c) q = true, 80);
    (startsWith (toLowerCase (displayName c)) q = true, 70);
    (includes (componentName c) q = true, 60);
    (includes (toLowerCase (displayName c)) q = true, 50);
    (q ∈ tags c, 40);
    ((exists tag, tag ∈ tags c /\ includes tag q = true), 30);
    (includes (toLowerCase (description c)) q = true, 20) ].

(** [FirstRule rules t]: [t] is the score of the first rule of the list
    that holds, every rule before it failing, and 0 when none holds. *)
Inductive FirstRule : list (Prop * Z) -> Z -> Prop :=
| first_here (P : Prop) t rest : P -> FirstRule ((P, t) :: rest) t
| first_later (P : Prop) t rest t' : ~ P -> FirstRule rest t' -> FirstRule ((P, t) :: rest) t'
| first_none : FirstRule [] 0.

(** Five points for each word of the list that occurs in the description,
    a word that is listed twice counting twice. *)
Fixpoint wordPoints (descriptionLower : string) (words : list string) : Z :=
  match words with
  | [] => 0
  | word :: rest =>
      (if includes descriptionLower word then 5 else 0) + wordPoints descriptionLower rest
  end.

(** The bonus as the code gives it: word by word, when the query has
    more than one word. *)
Definition wordBonus (c : ComponentInfo) (q : string) : Z :=
  let words := splitWhiteSpace q in
  if (1 <? length words)%nat then wordPoints (toLowerCase (description c)) words else 0.

(** The bonus as the specification words it: per distinct word. *)
Definition distinctWordBonus (c : ComponentInfo) (q : string) : Z :=
  let words := splitWhiteSpace q in
  if (1 <? length words)%nat
  then wordPoints (toLowerCase (description c)) (remove_dups words) else 0.

(** The score of a component for a query, as a key of the result order. *)
Definition scoreFor (q : string) (c : ComponentInfo) : Z := componentScore c q.

(** *** Lookup *)

(** The relation between a tag, or a key, and the query in the fallback
    rules of [findComponent]: one contains the other. *)
Definition related (s q : string) : Prop := includes s q = true \/ includes q s = true.

Definition tagRelated (q : string) (entry : string * ComponentInfo) : Prop :=
  exists tag, tag ∈ tags (snd entry) /\ related tag q.

Definition keyRelated (q : string) (entry : string * ComponentInfo) : Prop :=
  related (fst entry) q.

(** [entry] is the first entry of the table, in its order, that
    satisfies [P]. *)
Definition firstEntry (P : string * ComponentInfo -> Prop) (entry : string * ComponentInfo) : Prop :=
  exists before after,
    COMPONENT_LIBRARY = before ++ entry :: after /\ P entry /\ Forall (fun e => ~ P e) before.

Definition noEntry (P : string * ComponentInfo -> Prop) : Prop :=
  Forall (fun e => ~ P e) COMPONENT_LIBRARY.

(** The record that the alias table leads to: the record stored under
    the target of the alias. *)
Definition aliasRecord (q : string) : option ComponentInfo :=
  aliases !! q ≫= libraryGet.

(** [FirstHit q r]: [r] is the component that the first rule with a hit
    yields for the normalized query [q] (exact key, alias table, first
    entry with a related tag, first entry with a related key), and
    [null] when no rule has a hit. *)
Inductive FirstHit (q : string) : Lookup -> Prop :=
| hit_exact_key c :
    libraryGet q = Some c ->
    FirstHit q (Found c)
| hit_alias c :
    libraryGet q = None ->
    aliasRecord q = Some c ->
    FirstHit q (Found c)
| hit_tag entry :
    libraryGet q = None ->
    aliasRecord q = None ->
    firstEntry (tagRelated q) entry ->
    FirstHit q (Found (snd entry))
| hit_key entry :
    libraryGet q = None ->
    aliasRecord q = None ->
    noEntry (tagRelated q) ->
    firstEntry (keyRelated q) entry ->
    FirstHit q (Found (snd entry))
| hit_nothing :
    libraryGet q = None ->
    aliasRecord q = None ->
    noEntry (tagRelated q) ->
    noEntry (keyRelated q) ->
    FirstHit q Null.

(** *** Pattern matching *)







(** *** Conversation *)

(** The state a conversation starts from. *)
Definition initialState : TemplateConversation.ConversationState :=
  {| TemplateConversation.currentStep := 0;
     TemplateConversation.totalSteps := 4;
     TemplateConversation.answers := ∅;
     TemplateConversation.nextQuestion := None |}.

(** Sequential calls of the conversation step, one for each answer, each
    call being given the state that the call before it returned; the
    responses are collected, and the calls end with the first response
    that carries no state. *)
Fixpoint converse (st : TemplateConversation.ConversationState) (userAnswers : list string)
  : list TemplateConversation.StepResult :=
  match userAnswers with
  | [] => []
  | userAnswer :: rest =>
      let response := TemplateConversation.processConversationStep st userAnswer in
      response ::
        match response with
        | TemplateConversation.question_ st' => converse st' rest
        | _ => []
        end
  end.

(** Sorting by descending key: the comparator [(a, b) => key b - key a]
    and the order it yields. *)
Definition descending {A} (key : A -> Z) : A -> A -> Z := fun a b => key b - key a.
Definition notBelow {A} (key : A -> Z) : A -> A -> Prop := fun a b => key b <= key a.

(** * Properties *)

(** A decidable statement about the tables is settled by evaluation. *)
Ltac by_compute := apply (bool_decide_unpack _); vm_compute; exact I.

(** ** Facts about the JavaScript primitives *)

Section SortByKey.
Context {A : Type} (key : A -> Z).

Lemma insertBy_perm x l : insertBy (descending key) x l ≡ₚ x :: l.
Proof.
  induction l as [|y l IH]; simpl; [done|].
  destruct ((descending key) x y <=? 0); [done|].
  rewrite IH. apply Permutation_swap.
Qed.

Lemma sortBy_perm l : sortBy (descending key) l ≡ₚ l.
Proof.
  induction l as [|x l IH]; simpl; [done|].
  fold (sortBy (descending key) l). by rewrite insertBy_perm, IH.
Qed.

Lemma insertBy_sorted x l :
  StronglySorted (notBelow key) l -> StronglySorted (notBelow key) (insertBy (descending key) x l).
Proof.
  induction l as [|y l IH]; intros Hs; simpl.
  - repeat constructor.
  - apply StronglySorted_inv in Hs as [Hl Hy].
    destruct (Z.leb_spec ((descending key) x y) 0) as [Hle|Hgt]; unfold descending in *.
    + constructor; [by constructor|].
      constructor; [unfold notBelow; lia|].
      eapply Forall_impl; [exact Hy|]. unfold notBelow. intros; lia.
    + constructor; [by apply IH|].
      rewrite insertBy_perm. constructor; [unfold notBelow; lia|done].
Qed.

Lemma sortBy_sorted l : StronglySorted (notBelow key) (sortBy (descending key) l).
Proof.
  induction l as [|x l IH]; simpl; [constructor|].
  by apply insertBy_sorted.
Qed.


End SortByKey.

Lemma slice0_take {A} (limit : Z) (l : list A) : exists n, slice0 limit l = take n l.
Proof. unfold slice0. destruct (limit <? 0); eauto. Qed.

Lemma slice0_head {A} (limit : Z) (l : list A) : 1 <= limit -> head (slice0 limit l) = head l.
Proof.
  intros Hl. unfold slice0. destruct (Z.ltb_spec limit 0); [lia|].
  destruct (Z.to_nat limit) as [|n] eqn:E; [lia|]. by destruct l.
Qed.

Lemma StronglySorted_take {A} (R : A -> A -> Prop) n l :
  StronglySorted R l -> StronglySorted R (take n l).
Proof.
  intros Hs. rewrite <- (take_drop n l) in Hs.
  by apply StronglySorted_app_1_l in Hs.
Qed.

Lemma StronglySorted_fmap {A B} (f : A -> B) (R : A -> A -> Prop) (S : B -> B -> Prop) l :
  (forall x y, R x y -> S (f x) (f y)) ->
  StronglySorted R l -> StronglySorted S (map f l).
Proof.
  intros HRS. induction 1 as [|x l Hl IH Hx]; simpl; [constructor|].
  constructor; [done|].
  apply List.Forall_map. eapply Forall_impl; [exact Hx|]. eauto.
Qed.

(** [String.prefix q s] holds exactly when [s] is [q] followed by
    something, and [includes s q] when [q] occurs somewhere in [s]. *)
Lemma prefix_spec q s : String.prefix q s = true <-> exists post, s = q +:+ post.
Proof.
  revert s. induction q as [|c q IH]; intros s.
  - destruct s; simpl; (split; [intros _; by eexists|done]).
  - destruct s as [|d s]; simpl.
    + split; [done|]. intros [post H]. discriminate H.
    + destruct (Ascii.ascii_dec c d) as [->|Hne].
      * rewrite IH. split; intros [post H]; exists post; [by rewrite H|].
        by injection H.
      * split; [done|]. intros [post H]. injection H as H1 H2. congruence.
Qed.


Lemma slice0_map {A B} (f : A -> B) limit l : slice0 limit (map f l) = map f (slice0 limit l).
Proof. unfold slice0. rewrite length_map. destruct (limit <? 0); apply firstn_map. Qed.

Lemma StronglySorted_fmap_Forall {A B} (f : A -> B) (P : A -> Prop)
    (R : A -> A -> Prop) (S : B -> B -> Prop) l :
  (forall x y, P x -> P y -> R x y -> S (f x) (f y)) ->
  Forall P l -> StronglySorted R l -> StronglySorted S (map f l).
Proof.
  intros HRS HP Hs. induction Hs as [|x l Hl IH Hx]; simpl; [constructor|].
  apply Forall_cons in HP as [Px HP].
  constructor; [by apply IH|].
  apply List.Forall_map. rewrite Forall_forall in *. eauto.
Qed.

Lemma existsb_eqb_elem q (l : list string) :
  existsb (fun tag => String.eqb tag q) l = true <-> q ∈ l.
Proof.
  rewrite existsb_exists. split.
  - intros (tag & Hin & Heq). apply String.eqb_eq in Heq as ->. by apply list_elem_of_In.
  - intros Hin. exists q. split; [by apply list_elem_of_In|apply String.eqb_refl].
Qed.

Lemma existsb_elem {A} (f : A -> bool) (l : list A) :
  existsb f l = true <-> exists x, x ∈ l /\ f x = true.
Proof.
  rewrite existsb_exists. split; intros (x & Hin & Hf); exists x;
    (split; [by apply list_elem_of_In|done]).
Qed.

Lemma find_first {A} (f : A -> bool) (l : list A) x :
  List.find f l = Some x <->
  exists before after, l = before ++ x :: after /\ f x = true /\ Forall (fun y => f y = false) before.
Proof.
  induction l as [|y l IH]; simpl.
  - split; [done|]. intros (before & after & H & _). by destruct before.
  - destruct (f y) eqn:Hy.
    + split.
      * intros [= ->]. by exists [], l.
      * intros (before & after & H & Hx & Hb). destruct before as [|z before]; simpl in H.
        -- by injection H as ->.
        -- injection H as -> _. apply Forall_cons in Hb as [Hz _]. congruence.
    + rewrite IH. split.
      * intros (before & after & -> & Hx & Hb). exists (y :: before), after. by repeat constructor.
      * intros (before & after & H & Hx & Hb). destruct before as [|z before]; simpl in H.
        -- injection H as -> _. congruence.
        -- injection H as -> ->. apply Forall_cons in Hb as [_ Hb]. by exists before, after.
Qed.

Lemma find_none_Forall {A} (f : A -> bool) (l : list A) :
  List.find f l = None <-> Forall (fun y => f y = false) l.
Proof.
  induction l as [|y l IH]; simpl; [by split|].
  destruct (f y) eqn:Hy.
  - split; [done|]. intros H. apply Forall_cons in H as [H _]. congruence.
  - rewrite IH. split; [by constructor|]. intros H. by apply Forall_cons in H as [_ H].
Qed.

(** The primitives on small inputs. *)
Example splitWhiteSpace_examples :
  splitWhiteSpace "a  b c" = ["a"; "b"; "c"] /\
  splitWhiteSpace "" = [""] /\
  splitWhiteSpace " a " = [""; "a"; ""].
Proof. repeat split. Qed.

Example normalize_example : normalize "  Radio Button " = "radio button".
Proof. reflexivity. Qed.

Example slice0_examples :
  slice0 2 [1; 2; 3] = [1; 2] /\ slice0 5 [1; 2; 3] = [1; 2; 3] /\
  slice0 (-1) [1; 2; 3] = [1; 2] /\ slice0 (-5) [1; 2; 3] = [].
Proof. repeat split. Qed.

Example sortBy_stable_example :
  sortBy (descending snd) [("a", 1); ("b", 2); ("c", 1); ("d", 2)]
  = [("b", 2); ("d", 2); ("a", 1); ("c", 1)].
Proof. reflexivity. Qed.

(** ** Ranked search *)

(** The example of the specification: the exact key first, then the keys
    that contain the query, in table order. *)
Example searchComponentsRanked_button_3 :
  map componentName (searchComponentsRanked "button" None (Some 3))
  = ["button"; "glow-button"; "shimmer-button"].
Proof. vm_compute. reflexivity. Qed.


Lemma wordPoints_filter d words :
  Z.of_nat (length (List.filter (fun word => includes d word) words)) * 5 = wordPoints d words.
Proof.
  induction words as [|w words IH]; simpl; [done|].
  destruct (includes d w); simpl; lia.
Qed.

Lemma FirstRule_unique rules t t' : FirstRule rules t -> FirstRule rules t' -> t' = t.
Proof.
  induction 1 as [P t rest HP|P t rest t0 HP H IH|]; inversion 1; subst; try done.
  by apply IH.
Qed.

(** The ladder part of the score: the value of the [if]/[else if] chain. *)
Lemma ladder_chain c q :
  exists t, FirstRule (ladder c q) t /\
    t = (if String.eqb (componentName c) q then 0 + 100
         else if String.eqb (toLowerCase (displayName c)) q then 0 + 90
         else if startsWith (componentName c) q then 0 + 80
         else if startsWith (toLowerCase (displayName c)) q then 0 + 70
         else if includes (componentName c) q then 0 + 60
         else if includes (toLowerCase (displayName c)) q then 0 + 50
         else if existsb (fun tag => String.eqb tag q) (tags c) then 0 + 40
         else if existsb (fun tag => includes tag q) (tags c) then 0 + 30
         else if includes (toLowerCase (description c)) q then 0 + 20
         else 0).
Proof.
  unfold ladder.
  destruct (String.eqb_spec (componentName c) q) as [E1|E1];
    [eexists; split; [by apply first_here|done]|].
  destruct (String.eqb_spec (toLowerCase (displayName c)) q) as [E2|E2];
    [eexists; split; [by apply first_later, first_here|done]|].
  destruct (startsWith (componentName c) q) eqn:E3;
    [eexists; split; [by do 2 (apply first_later; [done|]); apply first_here|done]|].
  destruct (startsWith (toLowerCase (displayName c)) q) eqn:E4;
    [eexists; split; [by do 3 (apply first_later; [congruence|]); apply first_here|done]|].
  destruct (includes (componentName c) q) eqn:E5;
    [eexists; split; [by do 4 (apply first_later; [congruence|]); apply first_here|done]|].
  destruct (includes (toLowerCase (displayName c)) q) eqn:E6;
    [eexists; split; [by do 5 (apply first_later; [congruence|]); apply first_here|done]|].
  destruct (existsb (fun tag => String.eqb tag q) (tags c)) eqn:E7.
  { apply existsb_eqb_elem in E7.
    eexists; split; [by do 6 (apply first_later; [congruence|]); apply first_here|done]. }
  assert (q ∉ tags c) as E7' by (rewrite <- existsb_eqb_elem; congruence).
  destruct (existsb (fun tag => includes tag q) (tags c)) eqn:E8.
  { apply existsb_elem in E8.
    eexists; split; [|done].
    do 6 (apply first_later; [congruence|]). apply first_later; [done|]. by apply first_here. }
  assert (~ exists tag, tag ∈ tags c /\ includes tag q = true) as E8'
    by (rewrite <- existsb_elem; congruence).
  destruct (includes (toLowerCase (description c)) q) eqn:E9.
  { eexists; split; [|done].
    do 6 (apply first_later; [congruence|]). do 2 (apply first_later; [done|]). by apply first_here. }
  eexists; split; [|done].
  do 6 (apply first_later; [congruence|]). do 2 (apply first_later; [done|]).
  apply first_later; [congruence|]. apply first_none.
Qed.

Lemma componentScore_decomposition c q :
  exists t, FirstRule (ladder c q) t /\ componentScore c q = t + wordBonus c q.
Proof.
  destruct (ladder_chain c q) as (t & Hfirst & Ht).
  exists t. split; [done|].
  unfold componentScore, wordBonus. cbv zeta. rewrite <- Ht.
  destruct (1 <? length (splitWhiteSpace q))%nat; [|lia].
  by rewrite wordPoints_filter.
Qed.

(** C2, as amended: the score of a component is the score of the first
    rule of the ladder that it matches (one rule only, 0 when none
    matches), plus the bonus of 5 for each word of a query of more than
    one word that occurs in the description, a repeated word counting
    each time it is listed. *)
Theorem componentScore_first_rule_plus_bonus (c : ComponentInfo) (q : string) :
  exists t,
    FirstRule (ladder c q) t /\
    (forall t', FirstRule (ladder c q) t' -> t' = t) /\
    componentScore c q = t + wordBonus c q.
Proof.
  destruct (componentScore_decomposition c q) as (t & Hfirst & Ht).
  exists t. split; [done|]. split; [intros t' H'; by eapply FirstRule_unique|done].
Qed.

(** C2, the claim as worded fails: for the query "button button" the
    Button component matches no rule of the ladder, and its description
    contains the one distinct word "button"; 5 per distinct word would
    give 5, the code gives 10. *)
Lemma repeated_word_counted_twice :
  exists c,
    libraryGet "button" = Some c /\
    normalize "button button" = "button button" /\
    FirstRule (ladder c "button button") 0 /\
    distinctWordBonus c "button button" = 5 /\
    componentScore c "button button" = 10 /\
    componentScore c "button button" <> 0 + distinctWordBonus c "button button".
Proof.
  eexists. split; [vm_compute; reflexivity|].
  split; [vm_compute; reflexivity|].
  split.
  - match goal with |- FirstRule (ladder ?c ?q) _ =>
      destruct (ladder_chain c q) as (t & Hfirst & Ht) end.
    vm_compute in Ht. by subst t.
  - split; [vm_compute; reflexivity|].
    split; [vm_compute; reflexivity|].
    vm_compute. discriminate.
Qed.

Lemma scoreComponents_Forall q cs :
  Forall (fun sc => score sc = componentScore (component sc) q /\ 0 < score sc)
         (scoreComponents q cs).
Proof.
  induction cs as [|c cs IH]; simpl; [constructor|].
  destruct (Z.gtb_spec (componentScore c q) 0); [|done].
  constructor; [simpl; lia|done].
Qed.

(** C5: whatever the query, the category filter and the limit, the
    result of the ranked search is in non-increasing order of score and
    holds no component whose score is 0. *)
Theorem searchComponentsRanked_sorted_positive
    (query : string) (categoryFilter : option string) (limit : option Z) :
  let q := normalize query in
  let results := searchComponentsRanked query categoryFilter limit in
  StronglySorted (fun a b => componentScore b q <= componentScore a q) results /\
  Forall (fun c => 0 < componentScore c q) results.
Proof.
  intros q results. subst results. unfold searchComponentsRanked. cbv zeta.
  fold (normalize query). fold q.
  set (scored := scoreComponents q (componentsToSearch categoryFilter)).
  change (fun a b => score b - score a) with (descending score).
  pose proof (scoreComponents_Forall q (componentsToSearch categoryFilter)) as Hall.
  fold scored in Hall.
  rewrite <- (sortBy_perm score scored) in Hall.
  pose proof (sortBy_sorted score scored) as Hsorted.
  destruct (slice0_take (default 10 limit) (sortBy (descending score) scored)) as [n ->].
  apply (Forall_take _ n) in Hall. apply (StronglySorted_take _ n) in Hsorted.
  split.
  - eapply StronglySorted_fmap_Forall; [|exact Hall|exact Hsorted].
    unfold notBelow. intros x y [-> _] [-> _]. done.
  - apply List.Forall_map. eapply Forall_impl; [exact Hall|].
    simpl. intros sc [<- H]. done.
Qed.

(** ** The empty query *)


Lemma componentsToSearch_subset categoryFilter c :
  c ∈ componentsToSearch categoryFilter -> c ∈ map snd COMPONENT_LIBRARY.
Proof.
  unfold componentsToSearch. destruct categoryFilter as [cat|]; [|done].
  destruct (truthy cat); [|done].
  rewrite !list_elem_of_In, filter_In. tauto.
Qed.



Lemma normalize_all : normalize "all" = "all".
Proof. reflexivity. Qed.





(** ** Ranked search for a key of the table *)

Lemma searchComponentsRanked_head query categoryFilter limit :
  1 <= default 10 limit ->
  head (searchComponentsRanked query categoryFilter limit)
  = head (searchComponentsRanked query categoryFilter None).
Proof.
  intros Hl. unfold searchComponentsRanked. cbv zeta.
  rewrite <- !slice0_map, !slice0_head; [done|simpl; lia|done].
Qed.

Lemma keys_are_normalized :
  Forall (fun entry => normalize (fst entry) = fst entry) COMPONENT_LIBRARY.
Proof. by_compute. Qed.

Lemma key_ranked_first_default :
  Forall (fun entry => head (searchComponentsRanked (fst entry) None None) = Some (snd entry))
         COMPONENT_LIBRARY.
Proof. by_compute. Qed.

Lemma key_score_dominates :
  Forall (fun entry =>
            Forall (fun other =>
                      snd other = snd entry
                      \/ componentScore (snd other) (fst entry)
                         < componentScore (snd entry) (fst entry))
                   COMPONENT_LIBRARY)
         COMPONENT_LIBRARY.
Proof. by_compute. Qed.

Lemma key_score_100_but_radio :
  Forall (fun entry => fst entry = "radio" \/ componentScore (snd entry) (fst entry) = 100)
         COMPONENT_LIBRARY.
Proof. by_compute. Qed.

(** Ranked search for a key of the table puts the record stored under
    that key first, whatever the limit from 1 on, and the score of that
    record is above the score of every other record; the score is 100
    for every key but "radio". *)
Lemma exact_key_ranks_first (k : string) (c : ComponentInfo) (limit : option Z) :
  (k, c) ∈ COMPONENT_LIBRARY ->
  1 <= default 10 limit ->
  head (searchComponentsRanked k None limit) = Some c /\
  (forall k' c', (k', c') ∈ COMPONENT_LIBRARY -> c' <> c ->
                 componentScore c' (normalize k) < componentScore c (normalize k)) /\
  (k <> "radio" -> componentScore c (normalize k) = 100).
Proof.
  intros Hin Hl.
  pose proof keys_are_normalized as Hn. rewrite Forall_forall in Hn.
  specialize (Hn _ Hin). simpl in Hn. rewrite Hn. split; [|split].
  - rewrite searchComponentsRanked_head by done.
    pose proof key_ranked_first_default as H. rewrite Forall_forall in H. apply (H _ Hin).
  - intros k' c' Hin' Hne.
    pose proof key_score_dominates as H. rewrite Forall_forall in H.
    specialize (H _ Hin). rewrite Forall_forall in H.
    destruct (H _ Hin') as [Heq|Hlt]; [done|exact Hlt].
  - intros Hne. pose proof key_score_100_but_radio as H. rewrite Forall_forall in H.
    destruct (H _ Hin) as [Heq|H100]; [done|exact H100].
Qed.

(** C1, at the key "radio": the record stored under it is named
    "radio-group", so the query "radio" matches it by the rule "name
    starts with the query" and scores it 80, not 100; it is the only
    result, so it is still the first one. *)
Theorem searchComponentsRanked_radio_scores_80 :
  exists c,
    (("radio", c) ∈ COMPONENT_LIBRARY) /\
    componentName c = "radio-group" /\
    normalize "radio" = "radio" /\
    FirstRule (ladder c "radio") 80 /\
    componentScore c "radio" = 80 /\
    searchComponentsRanked "radio" None None = [c].
Proof.
  destruct (libraryGet "radio") as [c|] eqn:Hget; [|by vm_compute in Hget].
  exists c. vm_compute in Hget. injection Hget as <-.
  split; [by_compute|].
  split; [reflexivity|]. split; [reflexivity|].
  split.
  - match goal with |- FirstRule (ladder ?c ?q) _ =>
      destruct (ladder_chain c q) as (t & Hfirst & Ht) end.
    vm_compute in Ht. by subst t.
  - split; vm_compute; reflexivity.
Qed.

(** ** Lookup *)

(** C9: the lookup of a key of the table returns the record stored under
    that key. *)
Theorem findComponent_exact_key (k : string) (c : ComponentInfo) :
  (k, c) ∈ COMPONENT_LIBRARY -> findComponent k = Found c.
Proof.
  intros Hin.
  assert (Forall (fun entry => findComponent (fst entry) = Found (snd entry))
                 COMPONENT_LIBRARY) as H by by_compute.
  rewrite Forall_forall in H. apply (H _ Hin).
Qed.

Lemma findComponent_exact_key_witness :
  exists c, (("radio", c) ∈ COMPONENT_LIBRARY) /\ findComponent "radio" = Found c.
Proof.
  assert (exists c, ("radio", c) ∈ COMPONENT_LIBRARY) as [c Hin].
  { eexists. eapply (list_elem_of_lookup_2 _ 5%nat). reflexivity. }
  exists c. split; [exact Hin|]. exact (findComponent_exact_key "radio" c Hin).
Defined.

(** C3, the claim as worded fails: "tooltip" is an alias of "popover" and
    also a key of the table, and the exact key is looked up first. *)
Lemma alias_tooltip_is_a_key :
  aliases !! "tooltip" = Some "popover" /\
  (exists c, libraryGet "tooltip" = Some c /\ findComponent "tooltip" = Found c) /\
  findComponent "tooltip" <> findComponent "popover".
Proof.
  split; [vm_compute; reflexivity|]. split.
  - eexists. split; vm_compute; reflexivity.
  - intros H.
    apply (f_equal (fun r => match r with Found c => componentName c | _ => "" end)) in H.
    vm_compute in H. discriminate H.
Qed.

Lemma alias_entries_checked :
  forallb (fun entry =>
             match libraryGet (fst entry), libraryGet (snd entry) with
             | None, Some c =>
                 bool_decide (findComponent (fst entry) = Found c)
                 && bool_decide (findComponent (snd entry) = Found c)
             | _, _ => true
             end) aliasEntries = true.
Proof. vm_compute. reflexivity. Qed.

(** C3, as amended: for every alias entry (a -> k) whose alias [a] is
    not itself a key of the table and whose target [k] is one, the
    lookup of [a] and the lookup of [k] return the same record, the one
    stored under [k]. *)
Theorem findComponent_alias (a k : string) (c : ComponentInfo) :
  aliases !! a = Some k ->
  libraryGet a = None ->
  libraryGet k = Some c ->
  findComponent a = findComponent k /\ findComponent k = Found c.
Proof.
  intros Halias Ha Hk.
  apply elem_of_list_to_map_2, list_elem_of_In in Halias.
  pose proof alias_entries_checked as H. rewrite forallb_forall in H.
  specialize (H _ Halias). simpl in H. rewrite Ha, Hk in H.
  apply andb_true_iff in H as [H1 H2].
  apply bool_decide_eq_true in H1, H2. by rewrite H1, H2.
Qed.

Lemma findComponent_alias_witness :
  exists c,
    aliases !! "modal" = Some "dialog" /\
    libraryGet "modal" = None /\
    libraryGet "dialog" = Some c /\
    findComponent "modal" = findComponent "dialog" /\
    findComponent "dialog" = Found c.
Proof.
  assert (exists c, libraryGet "dialog" = Some c) as [c Hc].
  { eexists. reflexivity. }
  assert (aliases !! "modal" = Some "dialog") as Ha by (vm_compute; reflexivity).
  assert (libraryGet "modal" = None) as Hm by reflexivity.
  exists c. split; [exact Ha|]. split; [exact Hm|]. split; [exact Hc|].
  exact (findComponent_alias "modal" "dialog" c Ha Hm Hc).
Defined.

Lemma alias_targets_truthy : Forall (fun entry => truthy (snd entry) = true) aliasEntries.
Proof. by_compute. Qed.

Lemma aliasOf_lookup q : aliasOf q = aliases !! q.
Proof.
  unfold aliasOf. destruct (aliases !! q) as [target|] eqn:H; [|done].
  apply elem_of_list_to_map_2 in H.
  pose proof alias_targets_truthy as Ht. rewrite Forall_forall in Ht.
  specialize (Ht _ H). simpl in Ht. by rewrite Ht.
Qed.

Lemma tagRelated_test q entry : tagMatches q entry = true <-> tagRelated q entry.
Proof.
  unfold tagMatches. rewrite existsb_elem. unfold tagRelated, related.
  split; intros (tag & Hin & H); exists tag; (split; [done|]).
  - by apply orb_true_iff.
  - by apply orb_true_iff.
Qed.

Lemma keyRelated_test q entry : keyMatches q entry = true <-> keyRelated q entry.
Proof. unfold keyMatches, keyRelated, related. apply orb_true_iff. Qed.

Section FindEntry.
Context (f : string * ComponentInfo -> bool) (P : string * ComponentInfo -> Prop).
Hypothesis f_P : forall entry, f entry = true <-> P entry.

Lemma f_P_false entry : f entry = false <-> ~ P entry.
Proof. rewrite <- f_P. by destruct (f entry). Qed.

Lemma find_firstEntry entry :
  List.find f COMPONENT_LIBRARY = Some entry <-> firstEntry P entry.
Proof.
  rewrite find_first. unfold firstEntry.
  split; intros (before & after & Heq & HP & Hb); exists before, after;
    (split; [done|]); (split; [by apply f_P|]);
    (eapply Forall_impl; [exact Hb|]); intros e; apply f_P_false.
Qed.

Lemma find_noEntry : List.find f COMPONENT_LIBRARY = None <-> noEntry P.
Proof.
  rewrite find_none_Forall. unfold noEntry.
  split; intros H; (eapply Forall_impl; [exact H|]); intros e; apply f_P_false.
Qed.

Lemma firstEntry_unique e1 e2 : firstEntry P e1 -> firstEntry P e2 -> e1 = e2.
Proof. rewrite <- !find_firstEntry. congruence. Qed.

Lemma firstEntry_noEntry e : firstEntry P e -> noEntry P -> False.
Proof. rewrite <- find_firstEntry, <- find_noEntry. congruence. Qed.
End FindEntry.

(** The body of [findComponent], rule by rule. *)
Lemma findComponent_cases query :
  let q := normalize query in
  findComponent query
  = match libraryGet q with
    | Some c => Found c
    | None =>
        if inherits q then Inherited q
        else
          match aliases !! q with
          | Some target => libraryAt target
          | None =>
              match tagSearch q with
              | Some c => Found c
              | None =>
                  match nameSearch q with
                  | Some c => Found c
                  | None => Null
                  end
              end
          end
    end.
Proof.
  intros q. unfold findComponent, libraryAt. cbv zeta. fold (normalize query). fold q.
  rewrite aliasOf_lookup.
  destruct (libraryGet q); [done|]. by destruct (inherits q).
Qed.

(** Where no inherited member and no alias without a record is met,
    the lookup follows the first rule that hits. *)
Lemma findComponent_first_hit query :
  inherits (normalize query) = false ->
  (forall target, aliases !! normalize query = Some target -> libraryGet target <> None) ->
  FirstHit (normalize query) (findComponent query).
Proof.
  intros Hinh Htargets. rewrite findComponent_cases. cbv zeta. set (q := normalize query) in *.
  destruct (libraryGet q) as [c|] eqn:Hget; [by apply hit_exact_key|].
  rewrite Hinh.
  destruct (aliases !! q) as [target|] eqn:Halias.
  { specialize (Htargets target eq_refl). unfold libraryAt.
    destruct (libraryGet target) as [c|] eqn:Ht; [|done].
    apply hit_alias; [done|]. unfold aliasRecord. by rewrite Halias. }
  assert (aliasRecord q = None) as Hrec by (unfold aliasRecord; by rewrite Halias).
  destruct (tagSearch q) as [c|] eqn:Htag.
  { unfold tagSearch in Htag. apply fmap_Some in Htag as (e & Htag & ->).
    apply (find_firstEntry _ _ (tagRelated_test q)) in Htag. by apply hit_tag. }
  unfold tagSearch in Htag. apply fmap_None in Htag.
  apply (find_noEntry _ _ (tagRelated_test q)) in Htag.
  destruct (nameSearch q) as [c|] eqn:Hkey.
  { unfold nameSearch in Hkey. apply fmap_Some in Hkey as (e & Hkey & ->).
    apply (find_firstEntry _ _ (keyRelated_test q)) in Hkey. by apply hit_key. }
  unfold nameSearch in Hkey. apply fmap_None in Hkey.
  apply (find_noEntry _ _ (keyRelated_test q)) in Hkey. by apply hit_nothing.
Qed.

Lemma FirstHit_unique q r r' : FirstHit q r -> FirstHit q r' -> r' = r.
Proof.
  intros H H'.
  destruct H as [c Hc|c Hn Ha|e Hn Ha He|e Hn Ha Ht He|Hn Ha Ht Hk];
    destruct H' as [c' Hc'|c' Hn' Ha'|e' Hn' Ha' He'|e' Hn' Ha' Ht' He'|Hn' Ha' Ht' Hk'];
    try congruence.
  - by rewrite (firstEntry_unique _ _ (tagRelated_test q) _ _ He He').
  - destruct (firstEntry_noEntry _ _ (tagRelated_test q) _ He Ht').
  - destruct (firstEntry_noEntry _ _ (tagRelated_test q) _ He Ht').
  - destruct (firstEntry_noEntry _ _ (tagRelated_test q) _ He' Ht).
  - by rewrite (firstEntry_unique _ _ (keyRelated_test q) _ _ He He').
  - destruct (firstEntry_noEntry _ _ (keyRelated_test q) _ He Hk').
  - destruct (firstEntry_noEntry _ _ (tagRelated_test q) _ He' Ht).
  - destruct (firstEntry_noEntry _ _ (keyRelated_test q) _ He' Hk).
Qed.

Lemma tag_hit q entry :
  libraryGet q = None -> aliasRecord q = None ->
  List.find (tagMatches q) COMPONENT_LIBRARY = Some entry ->
  FirstHit q (Found (snd entry)).
Proof.
  intros Hget Hrec Hfind. apply hit_tag; [done|done|].
  by apply (find_firstEntry _ _ (tagRelated_test q)).
Qed.

(** C7, at the queries "radio button" and "constructor": the first rule
    with a hit is the tag rule, which yields the Button record for the
    one ("button" is a tag of Button and occurs in the query) and the
    Switch record for the other (its tag "on" occurs in the query).
    The code returns [undefined] for "radio button", because the alias
    rule returns whatever the table holds under the alias target
    "radio-group", which is no key; and it returns the function that
    every object inherits under "constructor", because the exact-key
    test reads the table with the query as key.  Neither is the
    component of the first rule with a hit, and neither is [null]. *)
Theorem findComponent_misses_first_rule :
  (normalize "radio button" = "radio button" /\
   findComponent "radio button" = Undefined /\
   (exists c, FirstHit "radio button" (Found c) /\ componentName c = "button") /\
   ~ FirstHit "radio button" (findComponent "radio button")) /\
  (normalize "constructor" = "constructor" /\
   findComponent "constructor" = Inherited "constructor" /\
   (exists c, FirstHit "constructor" (Found c) /\ componentName c = "switch") /\
   ~ FirstHit "constructor" (findComponent "constructor")).
Proof.
  split.
  - assert (findComponent "radio button" = Undefined) as Hcode by (vm_compute; reflexivity).
    destruct (List.find (tagMatches "radio button") COMPONENT_LIBRARY) as [e|] eqn:Hfind;
      [|by vm_compute in Hfind].
    assert (FirstHit "radio button" (Found (snd e))) as Hhit
      by (apply tag_hit; [reflexivity|vm_compute; reflexivity|exact Hfind]).
    split; [reflexivity|]. split; [exact Hcode|]. split.
    + exists (snd e). split; [exact Hhit|]. vm_compute in Hfind. by injection Hfind as <-.
    + rewrite Hcode. intros H. by pose proof (FirstHit_unique _ _ _ Hhit H).
  - assert (findComponent "constructor" = Inherited "constructor") as Hcode
      by (vm_compute; reflexivity).
    destruct (List.find (tagMatches "constructor") COMPONENT_LIBRARY) as [e|] eqn:Hfind;
      [|by vm_compute in Hfind].
    assert (FirstHit "constructor" (Found (snd e))) as Hhit
      by (apply tag_hit; [reflexivity|vm_compute; reflexivity|exact Hfind]).
    split; [reflexivity|]. split; [exact Hcode|]. split.
    + exists (snd e). split; [exact Hhit|]. vm_compute in Hfind. by injection Hfind as <-.
    + rewrite Hcode. intros H. by pose proof (FirstHit_unique _ _ _ Hhit H).
Qed.

(** C10: the record named "radio-group" is stored under the key "radio".
    The lookup by exact name misses it, although [listComponents] lists
    a component of that name, and the two aliases whose target is
    "radio-group" lead to no record. *)
Theorem radio_group_stored_under_radio :
  (exists c,
      List.filter (fun entry => String.eqb (componentName (snd entry)) "radio-group")
                  COMPONENT_LIBRARY
      = [("radio", c)] /\
      libraryGet "radio" = Some c /\
      displayName c = "Radio Group") /\
  libraryGet "radio-group" = None /\
  getComponentByName "radio-group" = Null /\
  (exists summary,
      summary ∈ ComponentService.listComponents
                  {| ComponentService.query := "";
                     ComponentService.category := None;
                     ComponentService.limit := None |} /\
      ComponentService.name summary = "radio-group" /\
      ComponentService.displayName summary = "Radio Group") /\
  aliases !! "radio button" = Some "radio-group" /\
  aliases !! "radiobutton" = Some "radio-group" /\
  findComponent "radio button" = Undefined /\
  findComponent "radiobutton" = Undefined.
Proof.
  split.
  { eexists. split; [vm_compute; reflexivity|]. split; reflexivity. }
  split; [reflexivity|]. split; [reflexivity|].
  split.
  { eexists. split; [|split].
    - eapply (list_elem_of_lookup_2 _ 5%nat). vm_compute. reflexivity.
    - reflexivity.
    - reflexivity. }
  repeat split; vm_compute; reflexivity.
Qed.

(** ** The template conversation *)

Section Conversation.
Import TemplateConversation.

(** C4, the claim as worded fails: from step 0 and no answers, the
    fourth call returns a question, the fourth one, with the state at
    step 4; it returns no template. *)
Lemma fourth_response_is_question :
  exists st4,
    converse initialState ["SaaS Product"; "Customers"; "Sign up"; "Professional"] !! 3%nat
    = Some (question_ st4) /\
    currentStep st4 = 4 /\
    nextQuestion st4 = Some "What style or tone do you prefer?" /\
    ~ exists t,
        converse initialState ["SaaS Product"; "Customers"; "Sign up"; "Professional"] !! 3%nat
        = Some (template_ t).
Proof.
  eexists. split; [vm_compute; reflexivity|].
  split; [reflexivity|]. split; [reflexivity|].
  intros [t H]. vm_compute in H. discriminate H.
Qed.

(** C4, as amended: from step 0 and no answers, four sequential calls
    take the step from 0 to 1, 2, 3 and 4, and each of the four
    responses is a question: the call at step 0 stores no answer and
    asks the first question, the calls at steps 1 to 3 store their
    answer and ask the next question.  The template is the response of
    a fifth call, made at step 4, which stores the fourth answer.
    [getTemplate] answers the same five requests with four question
    texts and then the template text. *)
Theorem conversation_five_calls (a0 a1 a2 a3 a4 : string) :
  exists s1 s2 s3 s4 t,
    converse initialState [a0; a1; a2; a3; a4]
    = [question_ s1; question_ s2; question_ s3; question_ s4; template_ t] /\
    map currentStep [s1; s2; s3; s4] = [1; 2; 3; 4] /\
    map nextQuestion [s1; s2; s3; s4]
    = [Some "What is this landing page for?";
       Some "Who is your target audience?";
       Some "What action do you want visitors to take?";
       Some "What style or tone do you prefer?"] /\
    answers s1 = ∅ /\
    answers s2 = <["purpose" := a1]> ∅ /\
    answers s3 = <["targetAudience" := a2]> (<["purpose" := a1]> ∅) /\
    answers s4
    = <["desiredAction" := a3]> (<["targetAudience" := a2]> (<["purpose" := a1]> ∅)) /\
    t = generateTemplateFromAnswers
          {| purpose := a1; targetAudience := a2; desiredAction := a3; style := a4 |} /\
    [getTemplate a0 (Some initialState); getTemplate a1 (Some s1); getTemplate a2 (Some s2);
     getTemplate a3 (Some s3); getTemplate a4 (Some s4)]
    = [nextQuestionText s1; nextQuestionText s2; nextQuestionText s3; nextQuestionText s4;
       templateText t].
Proof.
  do 5 eexists. split; [vm_compute; reflexivity|].
  repeat split; vm_compute; reflexivity.
Qed.
End Conversation.

(** ** The visual pattern matcher *)

Section Matcher.
Import ComponentMatcher.



(** One pattern: its components are added, each with the larger of its
    former priority and the priority of the pattern. *)
Section AddComponents.
Context (v : Z).




End AddComponents.



















End Matcher.

(** * Further properties of the sources *)

(** ** Normal forms of queries *)

Lemma toLowerChar_idemp c : toLowerChar (toLowerChar c) = toLowerChar c.
Proof. destruct c as [[] [] [] [] [] [] [] []]; reflexivity. Qed.

Lemma isWhiteSpace_toLowerChar c : isWhiteSpace (toLowerChar c) = isWhiteSpace c.
Proof. destruct c as [[] [] [] [] [] [] [] []]; reflexivity. Qed.

Lemma toLowerCase_idemp s : toLowerCase (toLowerCase s) = toLowerCase s.
Proof. induction s as [|c s IH]; simpl; [done|]. by rewrite toLowerChar_idemp, IH. Qed.

Lemma toLowerCase_app s t : toLowerCase (s +:+ t) = toLowerCase s +:+ toLowerCase t.
Proof. induction s as [|c s IH]; simpl; [done|]. by rewrite IH. Qed.

Lemma toLowerCase_trimStart s : toLowerCase (trimStart s) = trimStart (toLowerCase s).
Proof.
  induction s as [|c s IH]; simpl; [done|].
  rewrite isWhiteSpace_toLowerChar. by destruct (isWhiteSpace c).
Qed.

Lemma toLowerCase_trimEnd s : toLowerCase (trimEnd s) = trimEnd (toLowerCase s).
Proof.
  induction s as [|c s IH]; simpl; [done|].
  rewrite <- IH, isWhiteSpace_toLowerChar.
  destruct (trimEnd s) as [|d t]; simpl; [by destruct (isWhiteSpace c)|done].
Qed.

Lemma trimStart_idemp s : trimStart (trimStart s) = trimStart s.
Proof.
  induction s as [|c s IH]; simpl; [done|].
  destruct (isWhiteSpace c) eqn:Hc; [done|]. simpl. by rewrite Hc.
Qed.

Lemma trimEnd_cons c s :
  trimEnd (String c s)
  = match trimEnd s with
    | EmptyString => if isWhiteSpace c then EmptyString else String c EmptyString
    | t => String c t
    end.
Proof. reflexivity. Qed.

Lemma trimEnd_idemp s : trimEnd (trimEnd s) = trimEnd s.
Proof.
  induction s as [|c s IH]; [done|].
  rewrite trimEnd_cons. destruct (trimEnd s) as [|d t] eqn:Ht.
  - destruct (isWhiteSpace c) eqn:Hc; simpl; [done|]. by rewrite Hc.
  - by rewrite trimEnd_cons, IH.
Qed.

Lemma trimStart_trimEnd_trimStart s : trimStart (trimEnd (trimStart s)) = trimEnd (trimStart s).
Proof.
  destruct (trimStart s) as [|c t] eqn:Hs; [done|].
  assert (isWhiteSpace c = false) as Hc.
  { clear -Hs. induction s as [|d s IH]; simpl in Hs; [done|].
    destruct (isWhiteSpace d) eqn:Hd; [by apply IH|]. by injection Hs as <- _. }
  rewrite trimEnd_cons. destruct (trimEnd t); rewrite ?Hc; simpl; by rewrite Hc.
Qed.

Lemma trim_idemp s : trim (trim s) = trim s.
Proof. unfold trim. by rewrite trimStart_trimEnd_trimStart, trimEnd_idemp. Qed.

Lemma toLowerCase_trim s : toLowerCase (trim s) = trim (toLowerCase s).
Proof. unfold trim. by rewrite toLowerCase_trimEnd, toLowerCase_trimStart. Qed.

Lemma normalize_idemp query : normalize (normalize query) = normalize query.
Proof.
  unfold normalize. by rewrite toLowerCase_trim, toLowerCase_idemp, trim_idemp.
Qed.

(** X1: a query and its normal form (lowercased, trimmed) are looked up
    and searched alike, so the case of a query and the white space
    around it never matter. *)
Theorem lookups_ignore_case_and_padding
    (query : string) (categoryFilter : option string) (limit : option Z) :
  findComponent (normalize query) = findComponent query /\
  searchComponentsRanked (normalize query) categoryFilter limit
  = searchComponentsRanked query categoryFilter limit /\
  searchComponents (normalize query) = searchComponents query.
Proof.
  unfold findComponent, searchComponentsRanked, searchComponents. cbv zeta.
  fold (normalize (normalize query)). fold (normalize query).
  by rewrite normalize_idemp.
Qed.

(** ** The result list of the ranked search *)

Lemma searchComponentsRanked_unfold query categoryFilter limit :
  searchComponentsRanked query categoryFilter limit
  = slice0 (default 10 limit)
      (map component
         (sortBy (descending score)
            (scoreComponents (normalize query) (componentsToSearch categoryFilter)))).
Proof. unfold searchComponentsRanked. cbv zeta. by rewrite slice0_map. Qed.

Lemma map_component_scoreComponents q cs :
  map component (scoreComponents q cs)
  = List.filter (fun c => componentScore c q >? 0) cs.
Proof.
  induction cs as [|c cs IH]; simpl; [done|].
  destruct (componentScore c q >? 0); simpl; by rewrite IH.
Qed.

Lemma ranked_perm q categoryFilter :
  map component
    (sortBy (descending score) (scoreComponents q (componentsToSearch categoryFilter)))
  ≡ₚ List.filter (fun c => componentScore c q >? 0) (componentsToSearch categoryFilter).
Proof. rewrite <- map_component_scoreComponents. apply Permutation_map, sortBy_perm. Qed.

Lemma library_records_NoDup : NoDup (map snd COMPONENT_LIBRARY).
Proof. by_compute. Qed.

Lemma componentsToSearch_NoDup categoryFilter : NoDup (componentsToSearch categoryFilter).
Proof.
  unfold componentsToSearch. destruct categoryFilter as [cat|]; [|apply library_records_NoDup].
  destruct (truthy cat); [|apply library_records_NoDup].
  apply NoDup_ListNoDup, List.NoDup_filter, NoDup_ListNoDup, library_records_NoDup.
Qed.

Lemma componentsToSearch_length categoryFilter :
  (length (componentsToSearch categoryFilter) <= length COMPONENT_LIBRARY)%nat.
Proof.
  unfold componentsToSearch.
  destruct categoryFilter as [cat|]; [|by rewrite length_map].
  destruct (truthy cat); [|by rewrite length_map].
  etrans; [apply List.filter_length_le|]. by rewrite length_map.
Qed.

Lemma slice0_in {A} limit (l : list A) x : x ∈ slice0 limit l -> x ∈ l.
Proof.
  destruct (slice0_take limit l) as [n ->]. intros H.
  rewrite <- (take_drop n l). apply elem_of_app. by left.
Qed.

Lemma slice0_NoDup {A} limit (l : list A) : NoDup l -> NoDup (slice0 limit l).
Proof.
  destruct (slice0_take limit l) as [n ->]. intros H.
  eapply sublist_NoDup; [done|apply sublist_take].
Qed.

Lemma slice0_all {A} limit (l : list A) : Z.of_nat (length l) <= limit -> slice0 limit l = l.
Proof.
  intros H. unfold slice0. destruct (Z.ltb_spec limit 0); [lia|].
  apply take_ge. lia.
Qed.

(** X2: the results of the ranked search are distinct records of the
    component table. *)
Theorem searchComponentsRanked_distinct_table_records
    (query : string) (categoryFilter : option string) (limit : option Z) :
  NoDup (searchComponentsRanked query categoryFilter limit) /\
  Forall (fun c => c ∈ getAllComponents) (searchComponentsRanked query categoryFilter limit).
Proof.
  rewrite searchComponentsRanked_unfold. split.
  - apply slice0_NoDup. rewrite ranked_perm.
    apply NoDup_ListNoDup, List.NoDup_filter, NoDup_ListNoDup, componentsToSearch_NoDup.
  - apply Forall_forall. intros c Hc%slice0_in. rewrite ranked_perm in Hc.
    apply list_elem_of_In, filter_In in Hc as [Hc _].
    by apply (componentsToSearch_subset categoryFilter), list_elem_of_In.
Qed.

(** X3: with a category filter that is not the empty string, every
    result of the ranked search has that category. *)
Theorem searchComponentsRanked_respects_category
    (query cat : string) (limit : option Z) :
  cat <> "" ->
  Forall (fun c => category c = cat) (searchComponentsRanked query (Some cat) limit).
Proof.
  intros Hcat. rewrite searchComponentsRanked_unfold.
  apply Forall_forall. intros c Hc%slice0_in. rewrite ranked_perm in Hc.
  apply list_elem_of_In, filter_In in Hc as [Hc _].
  unfold componentsToSearch in Hc.
  assert (truthy cat = true) as Ht by (unfold truthy; by destruct (String.eqb_spec cat "")).
  rewrite Ht in Hc. apply filter_In in Hc as [_ Hc]. by apply String.eqb_eq.
Qed.

Lemma searchComponentsRanked_respects_category_witness :
  "form" <> "" /\
  Forall (fun c => category c = "form") (searchComponentsRanked "button" (Some "form") None).
Proof.
  assert ("form" <> "") as H by discriminate.
  split; [exact H|]. exact (searchComponentsRanked_respects_category "button" "form" None H).
Defined.

(** X4: a limit from 0 on only truncates: the result for a limit is the
    result for any greater limit cut after that many components, so it
    has no more components than the limit; a call without limit is a
    call with limit 10. *)
Theorem searchComponentsRanked_limit_truncates
    (query : string) (categoryFilter : option string) (l l' : Z) :
  0 <= l <= l' ->
  searchComponentsRanked query categoryFilter (Some l)
  = take (Z.to_nat l) (searchComponentsRanked query categoryFilter (Some l')) /\
  (length (searchComponentsRanked query categoryFilter (Some l)) <= Z.to_nat l)%nat /\
  searchComponentsRanked query categoryFilter None
  = searchComponentsRanked query categoryFilter (Some 10).
Proof.
  intros Hl. rewrite !searchComponentsRanked_unfold. simpl.
  unfold slice0. destruct (Z.ltb_spec l 0); [lia|]. destruct (Z.ltb_spec l' 0); [lia|].
  split; [|split; [|done]].
  - rewrite take_take. f_equal. lia.
  - rewrite length_take. lia.
Qed.

Lemma searchComponentsRanked_limit_truncates_witness :
  0 <= 2 <= 5 /\
  searchComponentsRanked "button" None (Some 2)
  = take (Z.to_nat 2) (searchComponentsRanked "button" None (Some 5)) /\
  (length (searchComponentsRanked "button" None (Some 2%Z)) <= Z.to_nat 2%Z)%nat /\
  searchComponentsRanked "button" None None = searchComponentsRanked "button" None (Some 10).
Proof.
  assert (0 <= 2 <= 5) as H by lia.
  split; [exact H|]. exact (searchComponentsRanked_limit_truncates "button" None 2 5 H).
Defined.

(** X5: a negative limit is not refused: it removes that many components
    from the end of the complete result. *)
Theorem searchComponentsRanked_negative_limit
    (query : string) (categoryFilter : option string) (l big : Z) :
  l < 0 ->
  Z.of_nat (length COMPONENT_LIBRARY) <= big ->
  let complete := searchComponentsRanked query categoryFilter (Some big) in
  searchComponentsRanked query categoryFilter (Some l)
  = take (length complete - Z.to_nat (- l)) complete.
Proof.
  intros Hl Hbig complete. subst complete. rewrite !searchComponentsRanked_unfold. simpl.
  set (full := map component _).
  assert (length full <= length COMPONENT_LIBRARY)%nat as Hlen.
  { subst full. rewrite ranked_perm.
    etrans; [apply List.filter_length_le|]. apply componentsToSearch_length. }
  rewrite (slice0_all big) by lia.
  unfold slice0. destruct (Z.ltb_spec l 0); [|lia]. f_equal. lia.
Qed.

Lemma searchComponentsRanked_negative_limit_witness :
  -1 < 0 /\
  Z.of_nat (length COMPONENT_LIBRARY) <= 100 /\
  searchComponentsRanked "button" None (Some (-1))
  = take (length (searchComponentsRanked "button" None (Some 100)) - Z.to_nat (- -1))
         (searchComponentsRanked "button" None (Some 100)).
Proof.
  assert (-1 < 0) as H1 by lia.
  assert (Z.of_nat (length COMPONENT_LIBRARY) <= 100) as H2 by (vm_compute; discriminate).
  split; [exact H1|]. split; [exact H2|].
  exact (searchComponentsRanked_negative_limit "button" None (-1) 100 H1 H2).
Defined.

(** The stable sort keeps, for every value of the key, the elements with
    that key in their order. *)
Lemma filter_insertBy {A} (key : A -> Z) v x l :
  List.filter (fun a => key a =? v) (insertBy (descending key) x l)
  = List.filter (fun a => key a =? v) (x :: l).
Proof.
  induction l as [|y l IH]; [done|].
  cbn [insertBy]. destruct (Z.leb_spec (descending key x y) 0) as [Hle|Hgt]; [done|].
  cbn [List.filter] in *. rewrite IH. unfold descending in Hgt.
  destruct (Z.eqb_spec (key x) v) as [Hx|Hx]; [|done].
  destruct (Z.eqb_spec (key y) v) as [Hy|Hy]; [lia|done].
Qed.

Lemma filter_sortBy {A} (key : A -> Z) v l :
  List.filter (fun a => key a =? v) (sortBy (descending key) l)
  = List.filter (fun a => key a =? v) l.
Proof.
  induction l as [|x l IH]; [done|].
  cbn [sortBy foldr]. fold (sortBy (descending key) l).
  rewrite filter_insertBy. cbn [List.filter]. by rewrite IH.
Qed.

Lemma filter_map_component q v l :
  Forall (fun sc => score sc = componentScore (component sc) q) l ->
  List.filter (fun c => componentScore c q =? v) (map component l)
  = map component (List.filter (fun sc => score sc =? v) l).
Proof.
  induction 1 as [|sc l Hsc Hl IH]; [done|].
  cbn [map List.filter]. rewrite <- Hsc, IH. by destruct (score sc =? v).
Qed.

Lemma filter_scoreComponents q v cs :
  0 < v ->
  map component (List.filter (fun sc => score sc =? v) (scoreComponents q cs))
  = List.filter (fun c => componentScore c q =? v) cs.
Proof.
  intros Hv. induction cs as [|c cs IH]; [done|].
  cbn [scoreComponents List.filter].
  destruct (Z.gtb_spec (componentScore c q) 0) as [Hpos|Hnot].
  - cbn [List.filter score]. destruct (componentScore c q =? v); simpl; by rewrite IH.
  - destruct (Z.eqb_spec (componentScore c q) v); [lia|done].
Qed.

(** The complete result: a limit of at least the size of the table
    cuts nothing. *)
Lemma searchComponentsRanked_complete
    (query : string) (categoryFilter : option string) (l : Z) :
  Z.of_nat (length COMPONENT_LIBRARY) <= l ->
  let q := normalize query in
  let results := searchComponentsRanked query categoryFilter (Some l) in
  (forall c, c ∈ results <-> c ∈ componentsToSearch categoryFilter /\ 0 < componentScore c q) /\
  (forall v, 0 < v ->
             List.filter (fun c => componentScore c q =? v) results
             = List.filter (fun c => componentScore c q =? v)
                           (componentsToSearch categoryFilter)).
Proof.
  intros Hl q results. subst results. rewrite searchComponentsRanked_unfold. simpl. fold q.
  set (scored := scoreComponents q (componentsToSearch categoryFilter)).
  assert (length (map component (sortBy (descending score) scored))
          <= length COMPONENT_LIBRARY)%nat as Hlen.
  { subst scored. rewrite ranked_perm.
    etrans; [apply List.filter_length_le|]. apply componentsToSearch_length. }
  rewrite slice0_all by lia. split.
  - intros c. subst scored. rewrite ranked_perm, list_elem_of_In, filter_In, <- list_elem_of_In.
    by rewrite Z.gtb_lt.
  - intros v Hv. rewrite filter_map_component.
    + rewrite filter_sortBy. by apply filter_scoreComponents.
    + rewrite sortBy_perm. eapply Forall_impl; [apply scoreComponents_Forall|].
      by intros sc [H _].
Qed.

(** X6: when the limit is at least the size of the table, the ranked
    search returns exactly the components that pass the category filter
    and score above 0, and for every score the components with that
    score come in table order (ties are not broken otherwise). *)
Theorem searchComponentsRanked_complete_ties_in_table_order
    (query : string) (categoryFilter : option string) (l : Z) :
  Z.of_nat (length COMPONENT_LIBRARY) <= l ->
  let q := normalize query in
  let results := searchComponentsRanked query categoryFilter (Some l) in
  (forall c, c ∈ results <-> c ∈ componentsToSearch categoryFilter /\ 0 < componentScore c q) /\
  (forall v, 0 < v ->
             List.filter (fun c => componentScore c q =? v) results
             = List.filter (fun c => componentScore c q =? v)
                           (componentsToSearch categoryFilter)).
Proof.
  exact (searchComponentsRanked_complete query categoryFilter l).
Qed.

Lemma searchComponentsRanked_complete_ties_in_table_order_witness :
  Z.of_nat (length COMPONENT_LIBRARY) <= 100 /\
  List.filter (fun c => componentScore c (normalize "button") =? 60)
              (searchComponentsRanked "button" None (Some 100))
  = List.filter (fun c => componentScore c (normalize "button") =? 60)
                (componentsToSearch None).
Proof.
  assert (Z.of_nat (length COMPONENT_LIBRARY) <= 100) as H by (vm_compute; discriminate).
  split; [exact H|].
  apply (proj2 (searchComponentsRanked_complete_ties_in_table_order "button" None 100 H)).
  lia.
Defined.

(** ** The search without ranking *)

Lemma prefix_refl s : String.prefix s s = true.
Proof.
  apply prefix_spec. exists EmptyString.
  induction s as [|c s IH]; [done|].
  change (String c s = String c (s +:+ EmptyString)). by rewrite <- IH.
Qed.

Lemma prefix_includes s q : String.prefix q s = true -> includes s q = true.
Proof. intros H. destruct s; cbn [includes]; by rewrite H. Qed.

Lemma wordPoints_nonneg d words : 0 <= wordPoints d words.
Proof. induction words as [|w words IH]; simpl; [done|]. destruct (includes d w); lia. Qed.

Lemma wordBonus_nonneg c q : 0 <= wordBonus c q.
Proof.
  unfold wordBonus. cbv zeta. destruct (1 <? _)%nat; [apply wordPoints_nonneg|done].
Qed.

(** The test of the search without ranking. *)
Lemma FirstRule_ladder_positive c q t :
  FirstRule (ladder c q) t ->
  0 <= t /\
  (0 < t <->
   includes (componentName c) q
   || includes (toLowerCase (displayName c)) q
   || includes (toLowerCase (description c)) q
   || existsb (fun tag => includes tag q) (tags c) = true).
Proof.
  intros H. destruct (ladder_chain c q) as (t' & H' & Ht).
  rewrite (FirstRule_unique _ _ _ H' H). clear H H' t.
  destruct (String.eqb_spec (componentName c) q) as [E1|E1].
  { subst t'. split; [lia|]. split; [intros _|lia].
    rewrite (prefix_includes _ _ (eq_ind_r (fun s => String.prefix q s = true)
                                           (prefix_refl q) E1)). done. }
  destruct (String.eqb_spec (toLowerCase (displayName c)) q) as [E2|E2].
  { subst t'. split; [lia|]. split; [intros _|lia].
    rewrite (prefix_includes (toLowerCase (displayName c)) q)
      by (rewrite E2; apply prefix_refl).
    by rewrite orb_true_r. }
  unfold startsWith in Ht.
  destruct (String.prefix q (componentName c)) eqn:E3.
  { subst t'. split; [lia|]. split; [intros _|lia]. by rewrite (prefix_includes _ _ E3). }
  destruct (String.prefix q (toLowerCase (displayName c))) eqn:E4.
  { subst t'. split; [lia|]. split; [intros _|lia].
    rewrite (prefix_includes _ _ E4). by rewrite orb_true_r. }
  destruct (includes (componentName c) q) eqn:E5.
  { subst t'. split; [lia|]. split; [done|lia]. }
  destruct (includes (toLowerCase (displayName c)) q) eqn:E6.
  { subst t'. split; [lia|]. split; [done|lia]. }
  destruct (existsb (fun tag => String.eqb tag q) (tags c)) eqn:E7.
  { subst t'. split; [lia|]. split; [intros _|lia].
    apply existsb_exists in E7 as (tag & Hin & Heq). apply String.eqb_eq in Heq. subst tag.
    assert (existsb (fun tag => includes tag q) (tags c) = true) as ->.
    { apply existsb_exists. exists q. split; [done|]. apply prefix_includes, prefix_refl. }
    by rewrite orb_true_r. }
  destruct (existsb (fun tag => includes tag q) (tags c)) eqn:E8.
  { subst t'. split; [lia|]. split; [intros _|lia]. by rewrite orb_true_r. }
  destruct (includes (toLowerCase (description c)) q) eqn:E9.
  { subst t'. split; [lia|]. split; [done|lia]. }
  subst t'. split; [lia|]. split; [lia|done].
Qed.

(** X7: every component that the search without ranking returns is also
    returned by the ranked search without category filter, when the
    limit is at least the size of the table; for a query of one word
    the two searches return the same components. *)
Theorem searchComponents_within_ranked (query : string) (l : Z) :
  Z.of_nat (length COMPONENT_LIBRARY) <= l ->
  (forall c, c ∈ searchComponents query -> c ∈ searchComponentsRanked query None (Some l)) /\
  ((length (splitWhiteSpace (normalize query)) <= 1)%nat ->
   forall c, c ∈ searchComponentsRanked query None (Some l) -> c ∈ searchComponents query).
Proof.
  intros Hl.
  pose proof (searchComponentsRanked_complete query None l Hl) as [Hmem _].
  cbv zeta in Hmem. unfold componentsToSearch in Hmem.
  unfold searchComponents. cbv zeta. fold (normalize query).
  split.
  - intros c Hc. apply Hmem. apply list_elem_of_In, filter_In in Hc as [Hin Htest].
    split; [by apply list_elem_of_In|].
    destruct (componentScore_decomposition c (normalize query)) as (t & Hfirst & ->).
    apply FirstRule_ladder_positive in Hfirst as [_ Hpos].
    apply Hpos in Htest. pose proof (wordBonus_nonneg c (normalize query)). lia.
  - intros Hone c Hc. apply Hmem in Hc as [Hin Hscore].
    apply list_elem_of_In, filter_In. split; [by apply list_elem_of_In|].
    destruct (componentScore_decomposition c (normalize query)) as (t & Hfirst & Heq).
    apply FirstRule_ladder_positive in Hfirst as [_ Hpos]. apply Hpos.
    unfold wordBonus in Heq. cbv zeta in Heq.
    destruct (Nat.ltb_spec 1 (length (splitWhiteSpace (normalize query)))); lia.
Qed.

Lemma searchComponents_within_ranked_witness :
  Z.of_nat (length COMPONENT_LIBRARY) <= 100 /\
  (length (splitWhiteSpace (normalize "Date")) <= 1)%nat /\
  (forall c, c ∈ searchComponents "Date" -> c ∈ searchComponentsRanked "Date" None (Some 100)) /\
  (forall c, c ∈ searchComponentsRanked "Date" None (Some 100) -> c ∈ searchComponents "Date").
Proof.
  assert (Z.of_nat (length COMPONENT_LIBRARY) <= 100) as H by (vm_compute; discriminate).
  assert (length (splitWhiteSpace (normalize "Date")) <= 1)%nat as H1 by (vm_compute; lia).
  split; [exact H|]. split; [exact H1|]. split.
  - exact (proj1 (searchComponents_within_ranked "Date" 100 H)).
  - exact (proj2 (searchComponents_within_ranked "Date" 100 H) H1).
Defined.

(** The hypothesis on the number of words is needed: the search without
    ranking finds nothing for "button button", the ranked search does. *)
Example searchComponents_misses_repeated_word :
  searchComponents "button button" = [] /\
  length (searchComponentsRanked "button button" None (Some 100)) = 16%nat.
Proof. split; vm_compute; reflexivity. Qed.

(** ** What the lookup returns *)

Lemma findComponent_normalize query : findComponent (normalize query) = findComponent query.
Proof.
  unfold findComponent. cbv zeta. fold (normalize (normalize query)). fold (normalize query).
  by rewrite normalize_idemp.
Qed.

Lemma libraryGet_Some key c : libraryGet key = Some c -> (key, c) ∈ COMPONENT_LIBRARY.
Proof.
  unfold libraryGet. intros (entry & Hfind & ->)%fmap_Some.
  apply find_some in Hfind as [Hin Hkey]. apply String.eqb_eq in Hkey. subst key.
  apply list_elem_of_In. by destruct entry.
Qed.

Lemma entry_record_in_table entry :
  entry ∈ COMPONENT_LIBRARY -> snd entry ∈ getAllComponents.
Proof. intros H. unfold getAllComponents. by apply list_elem_of_In, in_map, list_elem_of_In. Qed.

Lemma firstEntry_in_table P entry : firstEntry P entry -> entry ∈ COMPONENT_LIBRARY.
Proof.
  intros (before & after & -> & _). apply elem_of_app. right. apply elem_of_cons. by left.
Qed.

Lemma missing_alias_targets :
  Forall (fun entry =>
            libraryGet (snd entry) = None ->
            fst entry = "radio button" \/ fst entry = "radiobutton")
         aliasEntries.
Proof. by_compute. Qed.

Lemma alias_targets_not_inherited :
  Forall (fun entry => inherits (snd entry) = false) aliasEntries.
Proof. by_compute. Qed.

Lemma toLowerCase_normalize query : toLowerCase (normalize query) = normalize query.
Proof. unfold normalize. by rewrite toLowerCase_trim, toLowerCase_idemp. Qed.

(** Of the inherited members, only "constructor" and "__proto__" have a
    name without capital letters, which a normalized query can equal. *)
Lemma inherits_normalize query :
  inherits (normalize query) = true ->
  normalize query = "constructor" \/ normalize query = "__proto__".
Proof.
  pose proof (toLowerCase_normalize query) as Hlow. revert Hlow.
  generalize (normalize query) as q. intros q Hlow Hinh.
  unfold inherits in Hinh. apply existsb_exists in Hinh as (m & Hm & Heq).
  apply String.eqb_eq in Heq. subst m. simpl in Hm.
  repeat (destruct Hm as [<-|Hm]; [first [by left | by right | discriminate Hlow]|]).
  done.
Qed.

Lemma search_result_in_table f c :
  snd <$> List.find f COMPONENT_LIBRARY = Some c -> c ∈ getAllComponents.
Proof.
  intros (entry & Hfind & ->)%fmap_Some. apply find_some in Hfind as [Hin _].
  by apply entry_record_in_table, list_elem_of_In.
Qed.

(** The four kinds of result of the lookup, by the normal form of the
    query. *)
Lemma findComponent_outcomes (query : string) :
  (forall c, findComponent query = Found c -> c ∈ getAllComponents) /\
  (findComponent query = Undefined <->
   normalize query = "radio button" \/ normalize query = "radiobutton") /\
  (forall member,
      findComponent query = Inherited member <->
      normalize query = member /\ (member = "constructor" \/ member = "__proto__")).
Proof.
  assert (forall r, findComponent query = r ->
            match r with
            | Found c => c ∈ getAllComponents
            | Undefined => normalize query = "radio button" \/ normalize query = "radiobutton"
            | Inherited member =>
                normalize query = member /\ (member = "constructor" \/ member = "__proto__")
            | Null => True
            end) as Hforth.
  { intros r <-. rewrite findComponent_cases. cbv zeta.
    destruct (libraryGet (normalize query)) as [c|] eqn:Hget.
    { apply libraryGet_Some in Hget. exact (entry_record_in_table _ Hget). }
    destruct (inherits (normalize query)) eqn:Hinh.
    { split; [done|]. by apply inherits_normalize. }
    destruct (aliases !! normalize query) as [target|] eqn:Halias.
    { apply elem_of_list_to_map_2 in Halias. unfold libraryAt.
      destruct (libraryGet target) as [c|] eqn:Ht.
      - apply libraryGet_Some in Ht. exact (entry_record_in_table _ Ht).
      - pose proof alias_targets_not_inherited as Hni. rewrite Forall_forall in Hni.
        specialize (Hni _ Halias). simpl in Hni. rewrite Hni.
        pose proof missing_alias_targets as H. rewrite Forall_forall in H.
        exact (H _ Halias Ht). }
    destruct (tagSearch (normalize query)) as [c|] eqn:Htag;
      [by apply (search_result_in_table _ _ Htag)|].
    destruct (nameSearch (normalize query)) as [c|] eqn:Hkey;
      [by apply (search_result_in_table _ _ Hkey)|done]. }
  split; [|split].
  - intros c Hc. exact (Hforth _ Hc).
  - split; [intros H; exact (Hforth _ H)|].
    rewrite <- findComponent_normalize. intros [-> | ->]; vm_compute; reflexivity.
  - intros member. split; [intros H; exact (Hforth _ H)|].
    intros [<- H]. rewrite <- findComponent_normalize.
    destruct H as [-> | ->]; vm_compute; reflexivity.
Qed.

(** X8: the lookup never makes up a record: a record it returns is a
    record of the table.  Against its signature, it returns [undefined]
    exactly when the normalized query is "radio button" or
    "radiobutton", and a member inherited from [Object.prototype]
    exactly when the normalized query is "constructor" or "__proto__". *)
Theorem findComponent_results (query : string) :
  (forall c, findComponent query = Found c -> c ∈ getAllComponents) /\
  (findComponent query = Undefined <->
   normalize query = "radio button" \/ normalize query = "radiobutton") /\
  (forall member,
      findComponent query = Inherited member <->
      normalize query = member /\ (member = "constructor" \/ member = "__proto__")).
Proof.
  exact (findComponent_outcomes query).
Qed.

Lemma findComponent_results_witness :
  exists c, findComponent "modal" = Found c /\ c ∈ getAllComponents.
Proof.
  assert (exists c, findComponent "modal" = Found c) as [c Hc]
    by (eexists; vm_compute; reflexivity).
  exists c. split; [exact Hc|].
  exact (proj1 (findComponent_results "modal") c Hc).
Defined.

(** X9: for every query whose normal form is none of "radio button",
    "radiobutton", "constructor" and "__proto__", the lookup returns the
    component of the first rule that has a hit, the rules being tried in
    the order exact key, alias table, first entry with a related tag,
    first entry with a related key, and it returns [null] when no rule
    has a hit.  The query "modal" is settled by the alias rule, which
    yields the record of "dialog". *)
Theorem findComponent_first_rule_elsewhere (query : string) (r : Lookup) :
  normalize query <> "radio button" ->
  normalize query <> "radiobutton" ->
  normalize query <> "constructor" ->
  normalize query <> "__proto__" ->
  (FirstHit (normalize query) r <-> findComponent query = r).
Proof.
  intros H1 H2 H3 H4.
  assert (FirstHit (normalize query) (findComponent query)) as Hhit.
  { apply findComponent_first_hit.
    - destruct (inherits (normalize query)) eqn:Hinh; [|done].
      apply inherits_normalize in Hinh as [H|H]; done.
    - intros target Halias Hnone. apply elem_of_list_to_map_2 in Halias.
      pose proof missing_alias_targets as H. rewrite Forall_forall in H.
      destruct (H _ Halias Hnone) as [H'|H']; done. }
  split.
  - intros H. exact (FirstHit_unique _ _ _ H Hhit).
  - by intros <-.
Qed.

Lemma findComponent_first_rule_elsewhere_witness :
  exists dialog,
    libraryGet "modal" = None /\
    aliasRecord "modal" = Some dialog /\
    componentName dialog = "dialog" /\
    findComponent " Modal " = Found dialog.
Proof.
  assert (exists dialog, aliasRecord "modal" = Some dialog /\ componentName dialog = "dialog")
    as (dialog & Hrec & Hname) by (eexists; split; vm_compute; reflexivity).
  assert (libraryGet "modal" = None) as Hget by reflexivity.
  exists dialog. split; [exact Hget|]. split; [exact Hrec|]. split; [exact Hname|].
  apply (findComponent_first_rule_elsewhere " Modal " (Found dialog)); try discriminate.
  exact (hit_alias "modal" dialog Hget Hrec).
Defined.

Lemma key_lookup_checked :
  Forall (fun entry => findComponent (fst entry) = Found (snd entry)) COMPONENT_LIBRARY.
Proof. by_compute. Qed.

Lemma findComponent_of_key key c : libraryGet key = Some c -> findComponent key = Found c.
Proof.
  intros H%libraryGet_Some. pose proof key_lookup_checked as Hall.
  rewrite Forall_forall in Hall. exact (Hall _ H).
Qed.

Section Service.
Import ComponentService.

(** X10: a blank search query (empty, or white space only) is not
    reported as not found: [getComponent] answers with the first
    component of the table, Button, because every tag contains the
    empty string. *)
Theorem getComponent_blank_query (request : ComponentRequest) :
  normalize (searchQuery request) = "" ->
  exists c,
    head getAllComponents = Some c /\
    componentName c = "button" /\
    tagSearch "" = Some c /\
    getComponent request
    = componentResponse c
        (determineInstallPath (absolutePathToCurrentFile request)
                              (absolutePathToProjectDirectory request))
        (absolutePathToProjectDirectory request).
Proof.
  intros Hq. eexists. split; [reflexivity|]. split; [reflexivity|].
  split; [vm_compute; reflexivity|].
  unfold getComponent. rewrite <- findComponent_normalize, Hq. reflexivity.
Qed.

Lemma getComponent_blank_query_witness :
  normalize "  " = "" /\
  exists c,
    componentName c = "button" /\
    getComponent {| message := ""; searchQuery := "  "; absolutePathToCurrentFile := "";
                    absolutePathToProjectDirectory := ""; standaloneRequestQuery := "" |}
    = componentResponse c "src/components/ui" "".
Proof.
  assert (normalize "  " = "") as H by reflexivity.
  split; [exact H|].
  destruct (getComponent_blank_query
              {| message := ""; searchQuery := "  "; absolutePathToCurrentFile := "";
                 absolutePathToProjectDirectory := ""; standaloneRequestQuery := "" |} H)
    as (c & _ & Hname & _ & Hget).
  exists c. split; [exact Hname|exact Hget].
Defined.

(** X11: the lookup by exact name is the stricter of the two: whenever
    [getComponentDetails] finds a component for a name, [getComponent]
    finds the same component for that name as its search query. *)
Theorem getComponentDetails_found_by_getComponent
    (name currentFile projectPath msg standalone : string)
    (c : ComponentInfo) (installPath projectPath' : string) :
  getComponentDetails
    {| detailsComponentName := name; detailsPathToCurrentFile := currentFile;
       detailsPathToProjectDirectory := projectPath |}
  = detailedComponentResponse c installPath projectPath' ->
  getComponent
    {| message := msg; searchQuery := name; absolutePathToCurrentFile := currentFile;
       absolutePathToProjectDirectory := projectPath; standaloneRequestQuery := standalone |}
  = componentResponse c installPath projectPath'.
Proof.
  unfold getComponentDetails, getComponent, getComponentByName, libraryAt. simpl.
  destruct (libraryGet name) as [c'|] eqn:Hget; [|by destruct (inherits name)].
  intros [= <- <- <-]. by rewrite (findComponent_of_key _ _ Hget).
Qed.

Lemma getComponentDetails_found_by_getComponent_witness :
  exists c,
    getComponentDetails
      {| detailsComponentName := "dialog"; detailsPathToCurrentFile := "/p/src/app.tsx";
         detailsPathToProjectDirectory := "/p" |}
    = detailedComponentResponse c "src/components/ui" "/p" /\
    getComponent
      {| message := ""; searchQuery := "dialog"; absolutePathToCurrentFile := "/p/src/app.tsx";
         absolutePathToProjectDirectory := "/p"; standaloneRequestQuery := "" |}
    = componentResponse c "src/components/ui" "/p".
Proof.
  assert (exists c,
             getComponentDetails
               {| detailsComponentName := "dialog"; detailsPathToCurrentFile := "/p/src/app.tsx";
                  detailsPathToProjectDirectory := "/p" |}
             = detailedComponentResponse c "src/components/ui" "/p") as [c H].
  { eexists. vm_compute. reflexivity. }
  exists c. split; [exact H|].
  exact (getComponentDetails_found_by_getComponent
           "dialog" "/p/src/app.tsx" "/p" "" "" c "src/components/ui" "/p" H).
Defined.

Lemma inherited_names_are_no_keys :
  Forall (fun member => libraryGet member = None) objectPrototypeMembers.
Proof. by_compute. Qed.

Lemma inherits_elem_of key : inherits key = true <-> key ∈ objectPrototypeMembers.
Proof.
  unfold inherits. rewrite existsb_exists. split.
  - intros (m & Hm & ->%String.eqb_eq). by apply list_elem_of_In.
  - intros Hin. exists key. split; [by apply list_elem_of_In|apply String.eqb_refl].
Qed.

(** X12: the two tools raise a [TypeError] instead of answering "not
    found" when the name they look up is the name of a member that the
    table inherits from [Object.prototype]: [getComponent] when the
    normalized search query is "constructor" or "__proto__" (the other
    inherited names have capital letters, which normalization removes),
    [getComponentDetails] for each of the twelve inherited names. *)
Theorem tools_raise_on_inherited_names
    (request : ComponentRequest) (details : ComponentDetailsRequest) :
  (getComponent request = componentTypeError <->
   normalize (searchQuery request) = "constructor" \/
   normalize (searchQuery request) = "__proto__") /\
  (getComponentDetails details = componentTypeError <->
   detailsComponentName details ∈ objectPrototypeMembers).
Proof.
  split.
  - destruct (findComponent_outcomes (searchQuery request)) as (_ & _ & Hinh).
    unfold getComponent.
    destruct (findComponent (searchQuery request)) as [c|member| |] eqn:Hfind.
    2: { split; [intros _|done]. destruct (proj1 (Hinh member) eq_refl) as [<- H]. exact H. }
    all: split; [done|]; intros H;
      assert (normalize (searchQuery request) = normalize (searchQuery request) /\
              (normalize (searchQuery request) = "constructor" \/
               normalize (searchQuery request) = "__proto__")) as Hi by done;
      apply Hinh in Hi; discriminate Hi.
  - unfold getComponentDetails, getComponentByName, libraryAt.
    rewrite <- inherits_elem_of.
    destruct (libraryGet (detailsComponentName details)) as [c|] eqn:Hget.
    + split; [done|]. intros Hin%inherits_elem_of.
      pose proof inherited_names_are_no_keys as H. rewrite Forall_forall in H.
      specialize (H _ Hin). congruence.
    + by destruct (inherits (detailsComponentName details)).
Qed.

Example tools_raise_on_inherited_names_example :
  getComponent {| message := "m"; searchQuery := " Constructor"; absolutePathToCurrentFile := "/p/a.tsx";
                  absolutePathToProjectDirectory := "/p"; standaloneRequestQuery := "q" |}
  = componentTypeError /\
  getComponentDetails {| detailsComponentName := "toString"; detailsPathToCurrentFile := "/p/a.tsx";
                         detailsPathToProjectDirectory := "/p" |}
  = componentTypeError /\
  getComponentDetails {| detailsComponentName := "tostring"; detailsPathToCurrentFile := "/p/a.tsx";
                         detailsPathToProjectDirectory := "/p" |}
  = notFoundResponse "tostring" "/p".
Proof. repeat split; vm_compute; reflexivity. Qed.
End Service.

(** ** Listing components *)

Section Listing.
Import ComponentService.

Lemma searchComponentsRanked_in_table query categoryFilter limit c :
  c ∈ searchComponentsRanked query categoryFilter limit -> c ∈ componentsToSearch categoryFilter.
Proof.
  rewrite searchComponentsRanked_unfold. intros Hc%slice0_in. rewrite ranked_perm in Hc.
  by apply list_elem_of_In, filter_In in Hc as [Hc%list_elem_of_In _].
Qed.

(** The components that [listComponents] summarizes. *)
Lemma listComponents_components request :
  exists components,
    listComponents request = map summarize components /\
    (forall c, c ∈ components -> c ∈ componentsToSearch (category request)) /\
    (forall l, limit request = Some l -> 0 < l -> (length components <= Z.to_nat l)%nat).
Proof.
  unfold listComponents. cbv zeta.
  destruct (negb (truthy (query request)) || String.eqb (toLowerCase (query request)) "all").
  - eexists. split; [reflexivity|].
    assert ((match category request with
             | Some cat => if truthy cat then getComponentsByCategory cat else getAllComponents
             | None => getAllComponents
             end) = componentsToSearch (category request)) as ->.
    { unfold componentsToSearch, getComponentsByCategory, getAllComponents.
      by destruct (category request). }
    destruct (limit request) as [l|]; [|split; [done|by intros]].
    destruct (Z.eqb_spec l 0) as [->|Hne]; simpl.
    { split; [done|]. intros l [= <-]. lia. }
    destruct (Z.gtb_spec l 0) as [Hpos|Hneg].
    + split; [intros c; apply slice0_in|]. intros l' [= <-] _.
      unfold slice0. destruct (Z.ltb_spec l 0); [lia|]. rewrite length_take. lia.
    + split; [done|]. intros l' [= <-]. lia.
  - eexists. split; [reflexivity|]. split.
    + intros c. apply searchComponentsRanked_in_table.
    + intros l Hl Hpos. rewrite Hl. unfold limitOr100.
      destruct (Z.eqb_spec l 0); [lia|].
      rewrite searchComponentsRanked_unfold. simpl.
      unfold slice0. destruct (Z.ltb_spec l 0); [lia|]. rewrite length_take. lia.
Qed.

(** X13: [listComponents] respects the category filter and a positive
    limit on both of its paths: with a category that is not the empty
    string every summary has that category, and with a limit above 0
    there are at most that many summaries. *)
Theorem listComponents_category_and_limit (request : ListComponentsRequest) :
  (forall cat, category request = Some cat -> cat <> "" ->
               Forall (fun s => summaryCategory s = cat) (listComponents request)) /\
  (forall l, limit request = Some l -> 0 < l ->
             (length (listComponents request) <= Z.to_nat l)%nat).
Proof.
  destruct (listComponents_components request) as (components & -> & Hin & Hlen). split.
  - intros cat Hcat Hne. apply List.Forall_map, Forall_forall. intros c Hc%Hin.
    rewrite Hcat in Hc. unfold componentsToSearch in Hc.
    assert (truthy cat = true) as Ht by (unfold truthy; by destruct (String.eqb_spec cat "")).
    rewrite Ht in Hc. apply list_elem_of_In, filter_In in Hc as [_ Hc].
    simpl. by apply String.eqb_eq.
  - intros l Hl Hpos. rewrite length_map. by apply Hlen.
Qed.

Lemma listComponents_category_and_limit_witness :
  Forall (fun s => summaryCategory s = "form")
         (listComponents {| query := "all"; category := Some "form"; limit := Some 3 |}) /\
  (length (listComponents {| query := "input"; category := Some "form"; limit := Some 3%Z |})
   <= Z.to_nat 3%Z)%nat.
Proof.
  split.
  - apply (proj1 (listComponents_category_and_limit
                    {| query := "all"; category := Some "form"; limit := Some 3 |}) "form");
      [reflexivity|discriminate].
  - apply (proj2 (listComponents_category_and_limit
                    {| query := "input"; category := Some "form"; limit := Some 3 |}) 3);
      [reflexivity|lia].
Defined.

(** X14: a limit of 0 or below is ignored on the return-all path (query
    empty or "all" in any case): every component of the category is
    listed. *)
Theorem listComponents_all_ignores_nonpositive_limit (request : ListComponentsRequest) :
  query request = "" \/ toLowerCase (query request) = "all" ->
  (forall l, limit request = Some l -> l <= 0) ->
  listComponents request = map summarize (componentsToSearch (category request)).
Proof.
  intros Hq Hl. unfold listComponents. cbv zeta.
  assert (negb (truthy (query request)) || String.eqb (toLowerCase (query request)) "all" = true)
    as ->.
  { destruct Hq as [-> | ->]; [done|]. by rewrite String.eqb_refl, orb_true_r. }
  f_equal.
  assert ((match category request with
           | Some cat => if truthy cat then getComponentsByCategory cat else getAllComponents
           | None => getAllComponents
           end) = componentsToSearch (category request)) as ->.
  { unfold componentsToSearch, getComponentsByCategory, getAllComponents.
    by destruct (category request). }
  destruct (limit request) as [l|] eqn:El; [|done].
  specialize (Hl l eq_refl).
  destruct (Z.eqb_spec l 0); simpl; [done|].
  destruct (Z.gtb_spec l 0); [lia|done].
Qed.

Lemma listComponents_all_ignores_nonpositive_limit_witness :
  length (listComponents {| query := "ALL"; category := None; limit := Some (-3) |})
  = length COMPONENT_LIBRARY.
Proof.
  rewrite (listComponents_all_ignores_nonpositive_limit
             {| query := "ALL"; category := None; limit := Some (-3) |}).
  - reflexivity.
  - right. reflexivity.
  - intros l [= <-]. lia.
Defined.

Lemma named_records_checked :
  Forall (fun c => componentName c = "radio-group"
                   \/ getComponentByName (componentName c) = Found c)
         getAllComponents.
Proof. by_compute. Qed.

(** X15: the names that [listComponents] reports can be handed to the
    lookup by exact name, as the two-step workflow of the tools does:
    every summary but the one named "radio-group" is the summary of the
    record that [getComponentByName] returns for its name. *)
Theorem listComponents_names_resolve
    (request : ListComponentsRequest) (s : ComponentSummary) :
  s ∈ listComponents request ->
  name s <> "radio-group" ->
  exists c, getComponentByName (name s) = Found c /\ summarize c = s.
Proof.
  destruct (listComponents_components request) as (components & -> & Hin & _).
  intros Hs Hname. apply list_elem_of_In, in_map_iff in Hs as (c & <- & Hc).
  exists c. split; [|done].
  apply list_elem_of_In, Hin, componentsToSearch_subset in Hc.
  pose proof named_records_checked as H. rewrite Forall_forall in H.
  destruct (H c Hc) as [Hr|Hget]; [done|exact Hget].
Qed.

Lemma listComponents_names_resolve_witness :
  exists s c,
    s ∈ listComponents {| query := "glow"; category := None; limit := None |} /\
    name s = "glow-button" /\
    getComponentByName (name s) = Found c /\ summarize c = s.
Proof.
  assert (exists s, head (listComponents {| query := "glow"; category := None; limit := None |})
                    = Some s) as [s Hs] by (eexists; vm_compute; reflexivity).
  assert (name s = "glow-button") as Hname by (vm_compute in Hs; by injection Hs as <-).
  assert (s ∈ listComponents {| query := "glow"; category := None; limit := None |}) as Hin.
  { destruct (listComponents _) as [|s' l]; [done|]. injection Hs as ->. by left. }
  assert (name s <> "radio-group") as Hne by (rewrite Hname; discriminate).
  destruct (listComponents_names_resolve _ s Hin Hne) as (c & Hget & Hsum).
  exists s, c. split; [exact Hin|]. split; [exact Hname|]. split; [exact Hget|exact Hsum].
Defined.
End Listing.

(** ** The installation path *)

Lemma append_cons c s t : String c s +:+ t = String c (s +:+ t).
Proof. reflexivity. Qed.

Lemma append_assoc s t u : (s +:+ t) +:+ u = s +:+ (t +:+ u).
Proof. induction s as [|c s IH]; [done|]. by rewrite !append_cons, IH. Qed.




Lemma join_cons sep x y l : join sep (x :: y :: l) = x +:+ sep +:+ join sep (y :: l).
Proof. reflexivity. Qed.


Lemma join_app sep l1 l2 :
  l1 <> [] -> l2 <> [] -> join sep (l1 ++ l2) = join sep l1 +:+ sep +:+ join sep l2.
Proof.
  intros H1 H2. induction l1 as [|x l1 IH]; [done|].
  destruct l1 as [|y l1].
  - destruct l2 as [|z l2]; [done|]. reflexivity.
  - change ((x :: y :: l1) ++ l2) with (x :: y :: (l1 ++ l2)).
    rewrite !join_cons. change (y :: l1 ++ l2) with ((y :: l1) ++ l2).
    rewrite IH by done. by rewrite !append_assoc.
Qed.

Lemma join_snoc sep l x : exists pre, join sep (l ++ [x]) = pre +:+ x.
Proof.
  destruct l as [|y l]; [by exists EmptyString|].
  rewrite join_app by done. exists (join sep (y :: l) +:+ sep). by rewrite append_assoc.
Qed.

Lemma findIndex_Some {A} (p : A -> bool) l i :
  findIndex p l = Some i -> exists x, l !! i = Some x /\ p x = true.
Proof.
  revert i. induction l as [|y l IH]; intros i; cbn [findIndex]; [done|].
  destruct (p y) eqn:Hy.
  - intros [= <-]. by exists y.
  - intros (j & Hj & ->)%fmap_Some. by apply IH.
Qed.



Section InstallPath.
Import ComponentService.

(** X16: whatever the two paths, the installation path ends with
    "components/ui". *)
Theorem determineInstallPath_ends_with_components_ui (currentFile projectPath : string) :
  exists pre, determineInstallPath currentFile projectPath = pre +:+ "components/ui".
Proof.
  unfold determineInstallPath. cbv zeta.
  set (relativePath := toLowerCase (removeFirst currentFile projectPath)).
  assert (forall o : option string,
             (forall path, o = Some path -> exists pre, path = pre +:+ "components/ui") ->
             exists pre,
               match o with
               | Some path => path
               | None =>
                   if includes relativePath "/src/" then "src/components/ui"
                   else if includes relativePath "/app/" then "app/components/ui"
                   else if includes relativePath "/lib/" then "lib/components/ui"
                   else "src/components/ui"
               end = pre +:+ "components/ui") as Hcases.
  { intros [path|] H; [by apply H|].
    destruct (includes relativePath "/src/"); [by exists "src/"|].
    destruct (includes relativePath "/app/"); [by exists "app/"|].
    destruct (includes relativePath "/lib/"); [by exists "lib/"|by exists "src/"]. }
  apply Hcases. intros path Hpath.
  destruct (includes relativePath "/components/"); [|done].
  destruct (findIndex _ _) as [i|] eqn:Hi; [|done].
  destruct (i <? _)%nat; [|done]. injection Hpath as <-.
  apply findIndex_Some in Hi as (part & Hpart & Heq). apply String.eqb_eq in Heq. subst part.
  replace (i + 1)%nat with (S i) by lia. rewrite (take_S_r _ _ _ Hpart).
  destruct (join_snoc "/" (take i (splitOn "/" relativePath)) "components") as [pre ->].
  exists pre. by rewrite append_assoc.
Qed.



(** The example of the witness evaluated: the path keeps the slash that
    follows the project root. *)
Example determineInstallPath_example :
  determineInstallPath "/home/me/app/Src/Components/Forms/Login.tsx" "/home/me/app"
  = "/src/components/ui" /\
  determineInstallPath "" "" = "src/components/ui".
Proof. split; vm_compute; reflexivity. Qed.
End InstallPath.

(** ** The sections of a template *)

Section Sections.
Import TemplateConversation.

(** Every combination of answers, by cases on the tests of the source. *)
Ltac answer_cases :=
  unfold selectSectionsForTemplate, generateSectionsFromAnswers,
    purposeSections, audienceSections, actionSections,
    servicePurposeSections, serviceAudienceSections, serviceActionSections;
  cbv zeta; cbn [purpose targetAudience desiredAction style];
  repeat match goal with
         | |- context [String.eqb ?x ?y] =>
             is_var x; destruct (String.eqb_spec x y) as [->|?]
         end.

(** X18: whatever the answers, the selected sections open with the hero
    section and close with the footer, are in descending order of
    priority, and number between 2 and 8. *)
Theorem selectSectionsForTemplate_shape (a : TemplateAnswers) :
  let sections := selectSectionsForTemplate a in
  (exists rest, sections = section "Hero Section" 10 "hero"
                             "Main landing section with headline and CTA" :: rest) /\
  last sections = Some (section "Footer" 1 "footer" "Site footer with links and information") /\
  StronglySorted (notBelow priority) sections /\
  (2 <= length sections <= 8)%nat.
Proof.
  intros sections. split; [|split; [|split]]; [| |apply (sortBy_sorted priority)|];
    subst sections; destruct a as [p t d s].
  - answer_cases; eexists; vm_compute; reflexivity.
  - answer_cases; vm_compute; reflexivity.
  - answer_cases; vm_compute; lia.
Qed.

(** X19: the two section selectors, [selectSectionsForTemplate] of the
    conversation and [generateSectionsFromAnswers] of the service,
    recommend the same sections (name and component) for the same
    answers; they give them the same priorities, hence the same order,
    unless the desired action is "Subscribe to newsletter" or "Contact
    you", where the call to action has priority 8 in the first and 9
    in the second. *)
Theorem section_selectors_agree (a : TemplateAnswers) :
  map (fun s => (name s, tailarkComponent s)) (selectSectionsForTemplate a)
  ≡ₚ map (fun s => (name s, tailarkComponent s)) (generateSectionsFromAnswers a) /\
  (desiredAction a <> "Subscribe to newsletter" ->
   desiredAction a <> "Contact you" ->
   map (fun s => (name s, tailarkComponent s, priority s)) (selectSectionsForTemplate a)
   = map (fun s => (name s, tailarkComponent s, priority s)) (generateSectionsFromAnswers a)).
Proof.
  destruct a as [p t d s]. cbn [desiredAction]. split.
  - answer_cases; by_compute.
  - intros H1 H2. answer_cases; try congruence; vm_compute; reflexivity.
Qed.

Lemma section_selectors_agree_witness :
  "Buy" <> "Subscribe to newsletter" /\
  "Buy" <> "Contact you" /\
  map (fun s => (name s, tailarkComponent s, priority s))
      (selectSectionsForTemplate
         {| purpose := "Event"; targetAudience := "Investors"; desiredAction := "Buy";
            style := "Friendly" |})
  = map (fun s => (name s, tailarkComponent s, priority s))
        (generateSectionsFromAnswers
           {| purpose := "Event"; targetAudience := "Investors"; desiredAction := "Buy";
              style := "Friendly" |}).
Proof.
  assert ("Buy" <> "Subscribe to newsletter") as H1 by discriminate.
  assert ("Buy" <> "Contact you") as H2 by discriminate.
  split; [exact H1|]. split; [exact H2|].
  exact (proj2 (section_selectors_agree
                  {| purpose := "Event"; targetAudience := "Investors"; desiredAction := "Buy";
                     style := "Friendly" |}) H1 H2).
Defined.

(** The exception is real: for "Contact you" the orders differ. *)
Example section_selectors_differ :
  map name (selectSectionsForTemplate
              {| purpose := "SaaS Product"; targetAudience := "Customers";
                 desiredAction := "Contact you"; style := "Friendly" |})
  = ["Hero Section"; "Features"; "Pricing"; "Call to Action"; "Testimonials"; "Footer"] /\
  map name (generateSectionsFromAnswers
              {| purpose := "SaaS Product"; targetAudience := "Customers";
                 desiredAction := "Contact you"; style := "Friendly" |})
  = ["Hero Section"; "Features"; "Call to Action"; "Pricing"; "Testimonials"; "Footer"].
Proof. split; vm_compute; reflexivity. Qed.

(** ** The steps of the conversation *)

Lemma question_keys k :
  CONVERSATION_QUESTIONS !! k = None <-> ~ (1 <= k <= 4).
Proof.
  split.
  - intros Hnone Hk.
    assert (k = 1 \/ k = 2 \/ k = 3 \/ k = 4) as [-> | [-> | [-> | ->]]] by lia;
      vm_compute in Hnone; discriminate Hnone.
  - intros Hk. unfold CONVERSATION_QUESTIONS. apply not_elem_of_list_to_map_1.
    simpl. rewrite !elem_of_cons, elem_of_nil. lia.
Qed.


(** X21: from step 0 to step 3 the response is a question and the state
    moves one step on, with 4 as total whatever total came in; from
    step 4 on the response is the template, and nothing is asked
    again. *)
Theorem processConversationStep_outcome (st : ConversationState) (userAnswer : string) :
  (0 <= currentStep st <= 3 ->
   exists st' text,
     processConversationStep st userAnswer = question_ st' /\
     currentStep st' = currentStep st + 1 /\
     totalSteps st' = 4 /\
     nextQuestion st' = Some text /\
     getNextQuestion (currentStep st') = Some text) /\
  (4 <= currentStep st -> exists t, processConversationStep st userAnswer = template_ t).
Proof.
  unfold processConversationStep, getNextQuestion. cbv zeta. split.
  - intros Hstep. destruct (Z.geb_spec (currentStep st) 4) as [Hge|Hlt]; [lia|].
    destruct (CONVERSATION_QUESTIONS !! (currentStep st + 1)) as [q|] eqn:Hnext.
    + eexists _, _. split; [reflexivity|]. simpl. rewrite Hnext. done.
    + apply question_keys in Hnext. lia.
  - intros Hstep. destruct (Z.geb_spec (currentStep st) 4) as [Hge|Hlt]; [|lia]. by eexists.
Qed.

Lemma processConversationStep_outcome_witness :
  (exists st',
      processConversationStep
        {| currentStep := 2; totalSteps := 9; answers := ∅; nextQuestion := None |} "Investors"
      = question_ st' /\ currentStep st' = 3 /\ totalSteps st' = 4) /\
  (exists t,
      processConversationStep
        {| currentStep := 7; totalSteps := 4; answers := ∅; nextQuestion := None |} "x"
      = template_ t).
Proof.
  split.
  - destruct (proj1 (processConversationStep_outcome
                       {| currentStep := 2; totalSteps := 9; answers := ∅;
                          nextQuestion := None |} "Investors"))
      as (st' & text & H1 & H2 & H3 & _); [simpl; lia|].
    exists st'. split; [exact H1|]. split; [exact H2|exact H3].
  - apply (proj2 (processConversationStep_outcome
                    {| currentStep := 7; totalSteps := 4; answers := ∅;
                       nextQuestion := None |} "x")). simpl. lia.
Defined.

(** X22: when the current step has a question and is below 4, the answer
    is stored under the key of that question and can be read back from
    the returned state, and the answers under all other keys are kept. *)
Theorem processConversationStep_stores_answer
    (st : ConversationState) (userAnswer : string) (q : Question) :
  CONVERSATION_QUESTIONS !! currentStep st = Some q ->
  currentStep st < 4 ->
  exists st',
    processConversationStep st userAnswer = question_ st' /\
    answers st' !! key q = Some userAnswer /\
    (forall k, k <> key q -> answers st' !! k = answers st !! k).
Proof.
  intros Hq Hlt. unfold processConversationStep. cbv zeta. rewrite Hq.
  destruct (Z.geb_spec (currentStep st) 4) as [Hge|_]; [lia|].
  destruct (CONVERSATION_QUESTIONS !! (currentStep st + 1)) as [q'|] eqn:Hnext.
  - eexists. split; [reflexivity|]. simpl. split; [apply lookup_insert_eq|].
    intros k Hk. by apply lookup_insert_ne.
  - apply question_keys in Hnext.
    assert (CONVERSATION_QUESTIONS !! currentStep st <> None) as Hsome by congruence.
    rewrite question_keys in Hsome. lia.
Qed.

Lemma processConversationStep_stores_answer_witness :
  exists q st',
    CONVERSATION_QUESTIONS !! 2 = Some q /\
    key q = "targetAudience" /\
    processConversationStep
      {| currentStep := 2; totalSteps := 4; answers := <["purpose" := "Event"]> ∅;
         nextQuestion := None |} "Investors"
    = question_ st' /\
    answers st' !! key q = Some "Investors".
Proof.
  assert (exists q, CONVERSATION_QUESTIONS !! 2 = Some q /\ key q = "targetAudience")
    as (q & Hq & Hkey) by (eexists; split; vm_compute; reflexivity).
  destruct (processConversationStep_stores_answer
              {| currentStep := 2; totalSteps := 4; answers := <["purpose" := "Event"]> ∅;
                 nextQuestion := None |} "Investors" q Hq) as (st' & Hst & Hget & _);
    [simpl; lia|].
  exists q, st'. split; [exact Hq|]. split; [exact Hkey|]. split; [exact Hst|exact Hget].
Defined.
End Sections.
